(** * IronOS button driver: [source/Core/Drivers/Buttons.cpp]

    A shallow embedding of the two-button input classifier
    [getButtonState] and of the two blocking helpers [waitForButtonPress]
    and [waitForButtonPressOrTimeout], followed by the properties of the
    classifier's latch and of the helpers.

    Conventions.
    - [uint8_t] and [uint32_t] values are integers of [Z] with the
      wrap-around written out ([wrap8], [wrap32]).
    - the function-[static] latch and the global [lastButtonTime] are
      passed explicitly ([Globals]).
    - the hardware reads of one call ([getButtonA], [getButtonB],
      [xTaskGetTickCount]) are the fields of a [Sample]; a blocking helper
      consumes a list of them, and answers [None] when the list ends
      while the helper is still inside one of its loops. *)

From Stdlib Require Import ZArith List Bool Lia.
Import ListNotations.
Local Open Scope Z_scope.

(** ** Machine integers *)

Definition wrap8 (z : Z) : Z := z mod 2 ^ 8.
Definition wrap16 (z : Z) : Z := z mod 2 ^ 16.
Definition wrap32 (z : Z) : Z := z mod 2 ^ 32.

(** Modelled from the spec: the type [TickType_t] is declared in the
    FreeRTOS headers, which are not among the sources.  It is the
    counter's native unsigned type, [uint32_t] here (the helper adds a tick
    to a [uint32_t] in place): [x - y] on two ticks is the subtraction
    modulo [2 ^ 32]. *)
Definition tick_sub (x y : Z) : Z := wrap32 (x - y).
Definition tick_add (x y : Z) : Z := wrap32 (x + y).

(** ** Events *)

(** Modelled from the spec: the enumeration [ButtonState] is declared in
    [Buttons.hpp], which is not among the sources.  These are the seven
    events the driver produces; [BUTTON_NONE] is the one that the
    [while (buttons)] tests of the helpers take for false. *)
Inductive ButtonState : Type :=
| BUTTON_NONE
| BUTTON_F_SHORT
| BUTTON_B_SHORT
| BUTTON_F_LONG
| BUTTON_B_LONG
| BUTTON_BOTH
| BUTTON_BOTH_LONG.

(** The truth value of an event in a C condition. *)
Definition truthy (b : ButtonState) : bool :=
  match b with BUTTON_NONE => false | _ => true end.

(** ** The latch: [struct State] of [getButtonState] *)

Record State : Type := mkState {
  state : Z;             (* uint8_t: buttons currently held *)
  wasShortPress : bool;
  totalState : Z;        (* uint8_t: buttons pressed during the episode *)
  initialPressTime : Z;  (* TickType_t *)
  stateChangeTime : Z    (* TickType_t *)
}.

(** [static State state;] with its default member initialisers. *)
Definition State_init : State := mkState 0 false 0 0 0.

(** The function-static latch together with the global
    [uint32_t lastButtonTime = 0;]. *)
Record Globals : Type := mkGlobals {
  static_state : State;
  lastButtonTime : Z
}.

Definition Globals_init : Globals := mkGlobals State_init 0.

(** One round of hardware reads: the two button levels and the time since
    boot in ticks. *)
Record Sample : Type := mkSample {
  buttonA : bool;
  buttonB : bool;
  ticks : Z
}.

(** Modelled from the spec: [getButtonA()] and [getButtonB()] are
    declared in the board support header, which is not among the sources.
    They answer the level of a button, 1 when pressed and 0 otherwise. *)
Definition getButtonA (s : Sample) : Z := Z.b2z (buttonA s).
Definition getButtonB (s : Sample) : Z := Z.b2z (buttonB s).

(** Modelled from the spec: [xTaskGetTickCount()] is FreeRTOS's, not among
    the sources.  It answers the kernel's tick counter: the time since
    boot, in ticks, reduced to a [TickType_t]. *)
Definition xTaskGetTickCount (t : Z) : Z := wrap32 t.

(** [(getButtonA() << 0) | (getButtonB() << 1)] stored in a [uint8_t]. *)
Definition currentState_of (s : Sample) : Z :=
  wrap8 (Z.lor (Z.shiftl (getButtonA s) 0) (Z.shiftl (getButtonB s) 1)).

Section Buttons.

(** The macro [TICKS_100MS] comes from the board's configuration header;
    the driver is verified for every value of it. *)
Variable TICKS_100MS : Z.

(** [constexpr uint16_t LONG_PRESS_MIN = TICKS_100MS * 4;] *)
Definition LONG_PRESS_MIN : Z := wrap16 (TICKS_100MS * 4).

(** [isShortPress] of the source, from the sampled mask, the sampled tick
    and [state.initialPressTime] as it is after the assignment that
    precedes it. *)
Definition isShortPress_of (currentState now initialPressTime' : Z) : bool :=
  negb (currentState =? 0)
  && (tick_sub now initialPressTime' <? LONG_PRESS_MIN).

(** ** [getButtonState] *)

Definition getButtonState (s : Sample) (g : Globals) : ButtonState * Globals :=
  let st := static_state g in
  let currentState := currentState_of s in
  let now := xTaskGetTickCount (ticks s) in
  let lbt := if currentState =? 0 then lastButtonTime g else now in
  let ipt :=
    if negb (currentState =? 0) && (state st =? 0)
    then now else initialPressTime st in
  let isShortPress := isShortPress_of currentState now ipt in
  if negb (currentState =? state st) then
    (* A button is pressed or released. *)
    if negb (currentState =? 0) then
      (BUTTON_NONE,
       mkGlobals
         (mkState currentState isShortPress
                  (wrap8 (Z.lor (totalState st) currentState)) ipt now)
         lbt)
    else
      let retVal :=
        if wasShortPress st then
          if totalState st =? 1 then BUTTON_F_SHORT
          else if totalState st =? 2 then BUTTON_B_SHORT
          else BUTTON_BOTH
        else BUTTON_NONE in
      (retVal,
       mkGlobals (mkState currentState isShortPress 0 ipt now) lbt)
  else
    (* Button state unchanged. *)
    if currentState =? 0 then
      (BUTTON_NONE,
       mkGlobals
         (mkState (state st) (wasShortPress st) (totalState st) ipt
                  (stateChangeTime st))
         lbt)
    else
      let g' :=
        mkGlobals
          (mkState (state st) isShortPress (totalState st) ipt
                   (stateChangeTime st))
          lbt in
      if tick_sub now (stateChangeTime st) >=? LONG_PRESS_MIN then
        if currentState =? 1 then (BUTTON_F_LONG, g')
        else if currentState =? 2 then (BUTTON_B_LONG, g')
        else (BUTTON_BOTH_LONG, g')
      else (BUTTON_NONE, g').

(** A sequence of polls: the events in order and the final globals. *)
Fixpoint poll_all (ss : list Sample) (g : Globals)
  : list ButtonState * Globals :=
  match ss with
  | [] => ([], g)
  | s :: ss' =>
      let (e, g1) := getButtonState s g in
      let (es, g2) := poll_all ss' g1 in
      (e :: es, g2)
  end.

(** The globals after a sequence of polls from start-up. *)
Definition after_polls (ss : list Sample) : Globals :=
  snd (poll_all ss Globals_init).

(** ** [waitForButtonPress]

    The loop [while (c(buttons)) { buttons = getButtonState(); GUIDelay(); }]
    over the samples still to come.  [GUIDelay()], declared outside the
    sources, suspends the task and touches neither the latch nor
    [lastButtonTime]; the time it takes shows in the ticks of the next
    sample. *)
Fixpoint wait_loop (c : ButtonState -> bool) (buttons : ButtonState)
    (env : list Sample) (g : Globals)
  : option (ButtonState * Globals * list Sample) :=
  if c buttons then
    match env with
    | [] => None
    | s :: env' =>
        let (buttons', g') := getButtonState s g in
        wait_loop c buttons' env' g'
    end
  else Some (buttons, g, env).

(** [void waitForButtonPress()]: the first sample feeds the poll before the
    loops.  The answer holds the globals at return and the samples not
    consumed; the event itself is dropped. *)
Definition waitForButtonPress (s0 : Sample) (env : list Sample) (g : Globals)
  : option (Globals * list Sample) :=
  let (buttons, g0) := getButtonState s0 g in
  match wait_loop truthy buttons env g0 with
  | None => None
  | Some (buttons1, g1, env1) =>
      match wait_loop (fun b => negb (truthy b)) buttons1 env1 g1 with
      | None => None
      | Some (_, g2, env2) => Some (g2, env2)
      end
  end.

(** ** [waitForButtonPressOrTimeout]

    One turn of a loop of this helper reads the buttons and the clock in
    [getButtonState()], sleeps in [GUIDelay()] and reads the clock again
    for the test against the deadline. *)
Record Round : Type := mkRound {
  polled : Sample;
  ticks_after_delay : Z
}.

(** Which statement left the helper: a [return] under a deadline test, or
    the end of the second loop. *)
Inductive Exit : Type := ExitDeadline | ExitEvent.

Fixpoint timed_loop (c : ButtonState -> bool) (deadline : Z)
    (buttons : ButtonState) (env : list Round) (g : Globals)
  : option (option ButtonState * Globals * list Round) :=
  if c buttons then
    match env with
    | [] => None
    | r :: env' =>
        let (buttons', g') := getButtonState (polled r) g in
        if xTaskGetTickCount (ticks_after_delay r) >? deadline
        then Some (None, g', env')
        else timed_loop c deadline buttons' env' g'
    end
  else Some (Some buttons, g, env).

(** [void waitForButtonPressOrTimeout(uint32_t timeout)], entered when the
    time since boot is [t0]. *)
Definition waitForButtonPressOrTimeout (timeout : Z) (t0 : Z) (s0 : Sample)
    (env : list Round) (g : Globals)
  : option (Exit * Globals * list Round) :=
  let deadline := tick_add (wrap32 timeout) (xTaskGetTickCount t0) in
  let (buttons, g0) := getButtonState s0 g in
  match timed_loop truthy deadline buttons env g0 with
  | None => None
  | Some (None, g1, env1) => Some (ExitDeadline, g1, env1)
  | Some (Some buttons1, g1, env1) =>
      match timed_loop (fun b => negb (truthy b)) deadline buttons1 env1 g1 with
      | None => None
      | Some (None, g2, env2) => Some (ExitDeadline, g2, env2)
      | Some (Some _, g2, env2) => Some (ExitEvent, g2, env2)
      end
  end.

(** ** Vocabulary of the properties *)

(** The masks of a single button: bit 0 is button A (front), bit 1 is
    button B (back). *)
Definition A_only : Z := 1.
Definition B_only : Z := 2.

(** The long event of a reading of the two buttons. *)
Definition long_event (a b : bool) : ButtonState :=
  match a, b with
  | true, false => BUTTON_F_LONG
  | false, true => BUTTON_B_LONG
  | true, true => BUTTON_BOTH_LONG
  | false, false => BUTTON_NONE
  end.

(** [x] is a subset of [y], both read as sets of bits. *)
Definition mask_subset (x y : Z) : Prop := Z.land x y = x.

(** The time, in ticks, since the latch last changed, as the driver
    measures it at sample [s]. *)
Definition held_for (s : Sample) (g : Globals) : Z :=
  tick_sub (xTaskGetTickCount (ticks s)) (stateChangeTime (static_state g)).

(** Samples in which only A, or no button, is pressed. *)
Definition only_A (t : Z) : Sample := mkSample true false t.
Definition released (t : Z) : Sample := mkSample false false t.

(** The three kinds of event. *)
Inductive Kind : Type := KNone | KShort | KLong.

Definition kind_of (e : ButtonState) : Kind :=
  match e with
  | BUTTON_NONE => KNone
  | BUTTON_F_SHORT | BUTTON_B_SHORT | BUTTON_BOTH => KShort
  | BUTTON_F_LONG | BUTTON_B_LONG | BUTTON_BOTH_LONG => KLong
  end.

(** A latch whose two masks are values a two-button board can produce. *)
Definition mask_range (st : State) : Prop :=
  0 <= state st <= 3 /\ 0 <= totalState st <= 3.

(** The invariant of the latch. *)
Definition latch_inv (st : State) : Prop :=
  mask_range st
  /\ mask_subset (state st) (totalState st)
  /\ (state st = 0 -> wasShortPress st = false /\ totalState st = 0).

(** A alone is latched, since the time [t0]. *)
Definition A_held_since (t0 : Z) (st : State) : Prop :=
  state st = 1
  /\ initialPressTime st = xTaskGetTickCount t0
  /\ stateChangeTime st = xTaskGetTickCount t0.

(** The event of a poll of A alone [d] ticks after its press. *)
Definition hold_event (d : Z) : ButtonState :=
  if LONG_PRESS_MIN <=? d then BUTTON_F_LONG else BUTTON_NONE.

(** The deadline the helper computes at entry:
    [timeout += xTaskGetTickCount();] on a [uint32_t]. *)
Definition deadline_of (timeout t0 : Z) : Z :=
  tick_add (wrap32 timeout) (xTaskGetTickCount t0).

(** A round in which no button is pressed, polled at the time [fst p] and
    tested against the deadline at the time [snd p]. *)
Definition idle_round (p : Z * Z) : Round :=
  mkRound (released (fst p)) (snd p).

(** A round in which both buttons read released. *)
Definition quiet (r : Round) : Prop :=
  buttonA (polled r) = false /\ buttonB (polled r) = false.

(** A sample in which no button, or some button, reads pressed. *)
Definition no_button (s : Sample) : Prop :=
  buttonA s = false /\ buttonB s = false.

Definition some_button (s : Sample) : Prop :=
  buttonA s = true \/ buttonB s = true.


(** The reading of [s] taken again [e] ticks later. *)
Definition later (s : Sample) (e : Z) : Sample :=
  mkSample (buttonA s) (buttonB s) (ticks s + e).

(** The event of a poll that re-reads the buttons [a], [b] when they have
    been latched for [e] ticks. *)
Definition hold_event_of (a b : bool) (e : Z) : ButtonState :=
  if LONG_PRESS_MIN <=? e then long_event a b else BUTTON_NONE.

(** A reading within an episode: the two levels and the time elapsed
    since the first press of the episode. *)
Definition reading : Type := (bool * bool * Z)%type.

Definition elapsed (p : reading) : Z := snd p.

Definition sample_at (t0 : Z) (p : reading) : Sample :=
  mkSample (fst (fst p)) (snd (fst p)) (t0 + elapsed p).

(** The elapsed times of [ps] never decrease, starting at or after [lo]. *)
Fixpoint nondecreasing_from (lo : Z) (ps : list reading) : Prop :=
  match ps with
  | [] => True
  | p :: ps' => lo <= elapsed p /\ nondecreasing_from (elapsed p) ps'
  end.

(** The elapsed time of the last reading of [ps], [d] when there is none. *)
Definition last_elapsed (d : Z) (ps : list reading) : Z :=
  last (map elapsed ps) d.

(** Whether A, or B, reads pressed somewhere in [ps]. *)
Definition ever_A (ps : list reading) : bool :=
  existsb (fun p => fst (fst p)) ps.

Definition ever_B (ps : list reading) : bool :=
  existsb (fun p => snd (fst p)) ps.

(** The short event of the buttons pressed during an episode. *)
Definition short_event (a b : bool) : ButtonState :=
  match a, b with
  | true, false => BUTTON_F_SHORT
  | false, true => BUTTON_B_SHORT
  | _, _ => BUTTON_BOTH
  end.

(** The timing side of the latch [d] ticks into an episode begun at
    [t0]. *)
Definition episode_timing (t0 d : Z) (st : State) : Prop :=
  state st <> 0
  /\ initialPressTime st = xTaskGetTickCount t0
  /\ (exists c, 0 <= c <= d /\ stateChangeTime st = xTaskGetTickCount (t0 + c))
  /\ wasShortPress st = (d <? LONG_PRESS_MIN).

(** The masks of the latch in an episode in which A ([ea]) and B ([eb])
    have been seen pressed. *)
Definition episode_masks (ea eb : bool) (st : State) : Prop :=
  mask_subset (state st) (totalState st)
  /\ totalState st = Z.b2z ea + 2 * Z.b2z eb.


(** Two latches that agree but for their time stamps, those of the second
    being those of the first moved by [k] ticks on the counter.  The
    stamps of an empty latch are not compared: no poll reads them before
    it has written them. *)
Definition same_upto_shift (k : Z) (st st2 : State) : Prop :=
  state st2 = state st
  /\ wasShortPress st2 = wasShortPress st
  /\ totalState st2 = totalState st
  /\ (state st <> 0 ->
      initialPressTime st2 = wrap32 (initialPressTime st + k)
      /\ stateChangeTime st2 = wrap32 (stateChangeTime st + k)).


(** A round whose test finds the tick count within the deadline. *)
Definition within (deadline : Z) (r : Round) : Prop :=
  xTaskGetTickCount (ticks_after_delay r) <= deadline.


(** ** Facts on masks *)

Lemma log2_uint8 (a : Z) : 0 <= a < 2 ^ 8 -> Z.log2 a < 8.
Proof.
  intros Ha. destruct (Z.eq_dec a 0) as [->|Hn]; [simpl; lia|].
  apply Z.log2_lt_pow2; lia.
Qed.

Lemma lor_uint8 (a b : Z) :
  0 <= a < 2 ^ 8 -> 0 <= b < 2 ^ 8 -> 0 <= Z.lor a b < 2 ^ 8.
Proof.
  intros Ha Hb.
  assert (Hn : 0 <= Z.lor a b) by (apply Z.lor_nonneg; lia).
  split; [exact Hn|].
  destruct (Z.eq_dec (Z.lor a b) 0) as [->|Hl]; [lia|].
  apply Z.log2_lt_pow2; [lia|].
  rewrite Z.log2_lor by lia.
  pose proof (log2_uint8 a Ha). pose proof (log2_uint8 b Hb). lia.
Qed.

(** ** The four branches of [getButtonState] *)

Lemma currentState_of_cases (s : Sample) :
  currentState_of s = Z.b2z (buttonA s) + 2 * Z.b2z (buttonB s).
Proof. destruct s as [[] [] t]; reflexivity. Qed.

Lemma currentState_of_range (s : Sample) : 0 <= currentState_of s <= 3.
Proof. rewrite currentState_of_cases. destruct (buttonA s), (buttonB s); simpl; lia. Qed.

Lemma currentState_of_zero (s : Sample) :
  currentState_of s = 0 <-> buttonA s = false /\ buttonB s = false.
Proof.
  rewrite currentState_of_cases.
  destruct (buttonA s), (buttonB s); simpl; split; intros H;
    try lia; try (destruct H; discriminate); auto.
Qed.

Lemma currentState_of_released (t : Z) : currentState_of (released t) = 0.
Proof. reflexivity. Qed.

Lemma currentState_of_only_A (t : Z) : currentState_of (only_A t) = 1.
Proof. reflexivity. Qed.

(** A button is pressed or released, and some button is down. *)
Lemma poll_change (s : Sample) (g : Globals) :
  currentState_of s <> state (static_state g) ->
  currentState_of s <> 0 ->
  let now := xTaskGetTickCount (ticks s) in
  let ipt := if state (static_state g) =? 0
             then now else initialPressTime (static_state g) in
  getButtonState s g =
  (BUTTON_NONE,
   mkGlobals
     (mkState (currentState_of s)
        (tick_sub now ipt <? LONG_PRESS_MIN)
        (wrap8 (Z.lor (totalState (static_state g)) (currentState_of s)))
        ipt now)
     now).
Proof.
  intros Hne Hnz now ipt. unfold getButtonState, isShortPress_of.
  apply Z.eqb_neq in Hne. apply Z.eqb_neq in Hnz.
  rewrite Hne, Hnz. reflexivity.
Qed.

(** All buttons have just been released. *)
Lemma poll_release (s : Sample) (g : Globals) :
  currentState_of s = 0 ->
  state (static_state g) <> 0 ->
  let st := static_state g in
  getButtonState s g =
  (if wasShortPress st then
     if totalState st =? 1 then BUTTON_F_SHORT
     else if totalState st =? 2 then BUTTON_B_SHORT
     else BUTTON_BOTH
   else BUTTON_NONE,
   mkGlobals
     (mkState 0 false 0 (initialPressTime st) (xTaskGetTickCount (ticks s)))
     (lastButtonTime g)).
Proof.
  intros Hz Hne st. unfold getButtonState, isShortPress_of. fold st.
  assert (E : (0 =? state st) = false) by (apply Z.eqb_neq; auto).
  rewrite Hz, E. reflexivity.
Qed.

(** No button is down and none was. *)
Lemma poll_idle (s : Sample) (g : Globals) :
  currentState_of s = 0 ->
  state (static_state g) = 0 ->
  getButtonState s g = (BUTTON_NONE, g).
Proof.
  intros Hz He. unfold getButtonState. rewrite Hz, He.
  destruct g as [[h w tot ipt sct] lbt]. simpl in He. subst h. reflexivity.
Qed.

(** The buttons that were down are still down. *)
Lemma poll_hold (s : Sample) (g : Globals) :
  currentState_of s = state (static_state g) ->
  currentState_of s <> 0 ->
  let st := static_state g in
  let now := xTaskGetTickCount (ticks s) in
  getButtonState s g =
  (if LONG_PRESS_MIN <=? held_for s g
   then long_event (buttonA s) (buttonB s) else BUTTON_NONE,
   mkGlobals
     (mkState (state st)
        (tick_sub now (initialPressTime st) <? LONG_PRESS_MIN)
        (totalState st) (initialPressTime st) (stateChangeTime st))
     now).
Proof.
  intros He Hnz st now. unfold getButtonState, isShortPress_of, held_for.
  fold st now.
  assert (E0 : (currentState_of s =? 0) = false) by (apply Z.eqb_neq; auto).
  assert (E1 : (currentState_of s =? state st) = true) by (apply Z.eqb_eq; auto).
  assert (E2 : (state st =? 0) = false)
    by (apply Z.eqb_neq; unfold st; rewrite <- He; auto).
  rewrite E0, E1, E2. simpl negb. simpl andb. cbv iota.
  rewrite Z.geb_leb.
  destruct (LONG_PRESS_MIN <=? tick_sub now (stateChangeTime st)); [|reflexivity].
  rewrite currentState_of_cases in Hnz |- *.
  destruct (buttonA s), (buttonB s); simpl in *; try reflexivity; lia.
Qed.

(** The four branches cover every poll. *)
Lemma poll_branches (s : Sample) (g : Globals) :
  (currentState_of s <> state (static_state g) /\ currentState_of s <> 0)
  \/ (currentState_of s = 0 /\ state (static_state g) <> 0)
  \/ (currentState_of s = 0 /\ state (static_state g) = 0)
  \/ (currentState_of s = state (static_state g) /\ currentState_of s <> 0).
Proof.
  destruct (Z.eq_dec (currentState_of s) (state (static_state g)));
    destruct (Z.eq_dec (currentState_of s) 0); try lia.
Qed.

Ltac poll_cases s g :=
  destruct (poll_branches s g) as [[? ?]|[[? ?]|[[? ?]|[? ?]]]];
  [ rewrite (poll_change s g) by assumption
  | rewrite (poll_release s g) by assumption
  | rewrite (poll_idle s g) by assumption
  | rewrite (poll_hold s g) by assumption ].

(** ** Sequences of polls *)

Lemma poll_all_app (ss1 ss2 : list Sample) (g : Globals) :
  poll_all (ss1 ++ ss2) g =
  (fst (poll_all ss1 g) ++ fst (poll_all ss2 (snd (poll_all ss1 g))),
   snd (poll_all ss2 (snd (poll_all ss1 g)))).
Proof.
  revert g. induction ss1 as [|s ss1 IH]; intros g; simpl.
  - destruct (poll_all ss2 g); reflexivity.
  - destruct (getButtonState s g) as [e g1]. rewrite IH.
    destruct (poll_all ss1 g1) as [es g2]. reflexivity.
Qed.

Lemma after_polls_snoc (ss : list Sample) (s : Sample) :
  after_polls (ss ++ [s]) = snd (getButtonState s (after_polls ss)).
Proof.
  unfold after_polls. rewrite poll_all_app. simpl.
  destruct (getButtonState s (snd (poll_all ss Globals_init))); reflexivity.
Qed.

(** ** The invariant of the latch *)

Lemma latch_inv_init : latch_inv State_init.
Proof. repeat split; simpl; lia. Qed.

Lemma merge_masks (tot cur : Z) :
  0 <= tot <= 3 -> 0 <= cur <= 3 ->
  0 <= wrap8 (Z.lor tot cur) <= 3
  /\ mask_subset cur (wrap8 (Z.lor tot cur)).
Proof.
  intros Ht Hc.
  assert (Et : tot = 0 \/ tot = 1 \/ tot = 2 \/ tot = 3) by lia.
  assert (Ec : cur = 0 \/ cur = 1 \/ cur = 2 \/ cur = 3) by lia.
  destruct Et as [-> | [-> | [-> | ->]]];
    destruct Ec as [-> | [-> | [-> | ->]]];
    vm_compute; repeat split; discriminate.
Qed.

Lemma latch_inv_step (s : Sample) (g : Globals) :
  latch_inv (static_state g) ->
  latch_inv (static_state (snd (getButtonState s g))).
Proof.
  intros [[Hs Ht] [Hsub Hz]].
  pose proof (currentState_of_range s) as Hc.
  poll_cases s g; cbv zeta; simpl snd; simpl static_state.
  - destruct (merge_masks _ _ Ht Hc) as [Hr Hm].
    repeat split; simpl; try lia; try exact Hm; try apply Hr; contradiction.
  - repeat split; simpl; lia.
  - repeat split; try lia; try exact Hsub; apply Hz; assumption.
  - split; [split; simpl; lia|]. split; [exact Hsub|].
    simpl. intros E. rewrite E in *. contradiction.
Qed.

Lemma latch_inv_poll_all (ss : list Sample) (g : Globals) :
  latch_inv (static_state g) ->
  latch_inv (static_state (snd (poll_all ss g))).
Proof.
  revert g. induction ss as [|s ss IH]; intros g Hg; simpl; auto.
  pose proof (latch_inv_step s g Hg) as H1.
  destruct (getButtonState s g) as [e g1]. simpl in H1.
  specialize (IH g1 H1). destruct (poll_all ss g1). exact IH.
Qed.

Lemma latch_inv_after_polls (ss : list Sample) :
  latch_inv (static_state (after_polls ss)).
Proof. apply latch_inv_poll_all, latch_inv_init. Qed.

(** Under the invariant one mask is empty exactly when the other is. *)
Lemma latch_inv_empty (st : State) :
  latch_inv st -> (totalState st = 0 <-> state st = 0).
Proof.
  intros [_ [Hsub Hz]]. split; intros H.
  - unfold mask_subset in Hsub. rewrite H, Z.land_0_r in Hsub. auto.
  - apply Hz, H.
Qed.

(** ** Single polls *)

(** C1. On the release edge (both buttons read released while the latch
    holds a non-empty mask): when [wasShortPress] is set the event is
    decided by [totalState], [BUTTON_F_SHORT] for exactly the A bit,
    [BUTTON_B_SHORT] for exactly the B bit and [BUTTON_BOTH] otherwise; when
    [wasShortPress] is clear the poll returns [BUTTON_NONE]. *)
Theorem release_edge_event (s : Sample) (g : Globals) :
  buttonA s = false -> buttonB s = false ->
  state (static_state g) <> 0 ->
  let st := static_state g in
  let e := fst (getButtonState s g) in
  (wasShortPress st = true -> totalState st = A_only -> e = BUTTON_F_SHORT)
  /\ (wasShortPress st = true -> totalState st = B_only -> e = BUTTON_B_SHORT)
  /\ (wasShortPress st = true ->
      totalState st <> A_only -> totalState st <> B_only -> e = BUTTON_BOTH)
  /\ (wasShortPress st = false -> e = BUTTON_NONE).
Proof.
  intros Ha Hb Hne st e.
  assert (Hz : currentState_of s = 0) by (apply currentState_of_zero; auto).
  unfold e. rewrite (poll_release s g Hz Hne). cbv zeta. fold st. simpl fst.
  unfold A_only, B_only.
  repeat split.
  - intros -> ->. reflexivity.
  - intros -> ->. reflexivity.
  - intros -> H1 H2. apply Z.eqb_neq in H1, H2. rewrite H1, H2. reflexivity.
  - intros ->. reflexivity.
Qed.

(** C4. A poll whose mask differs from the latched one and is not empty
    returns [BUTTON_NONE], after it has latched [state = currentState] and
    [wasShortPress = isShortPress] and merged [totalState |= currentState]
    (it also stamps [stateChangeTime], and [initialPressTime] when the
    latch was empty): nothing is reported at the moment of a press or of a
    change of combination. *)
Theorem change_poll_latches (s : Sample) (g : Globals) :
  currentState_of s <> state (static_state g) ->
  currentState_of s <> 0 ->
  0 <= totalState (static_state g) < 2 ^ 8 ->
  let st := static_state g in
  let now := xTaskGetTickCount (ticks s) in
  let e := fst (getButtonState s g) in
  let st' := static_state (snd (getButtonState s g)) in
  e = BUTTON_NONE
  /\ state st' = currentState_of s
  /\ wasShortPress st' =
     isShortPress_of (currentState_of s) now (initialPressTime st')
  /\ totalState st' = Z.lor (totalState st) (currentState_of s)
  /\ initialPressTime st' =
     (if state st =? 0 then now else initialPressTime st)
  /\ stateChangeTime st' = now.
Proof.
  intros Hne Hnz Ht st now e st'. unfold e, st'.
  rewrite (poll_change s g Hne Hnz). cbv zeta. simpl.
  fold st now. unfold isShortPress_of.
  assert (E0 : (currentState_of s =? 0) = false) by (apply Z.eqb_neq; auto).
  rewrite E0. simpl. repeat split.
  unfold wrap8. apply Z.mod_small.
  pose proof (currentState_of_range s) as Hc.
  apply lor_uint8; fold st in Ht; lia.
Qed.

(** C10. The kind of the event of a poll agrees with what the buttons read
    at that poll: a short event comes only with both buttons released, a
    long event only with a button pressed, and any other poll returns
    [BUTTON_NONE]. *)
Theorem event_kind_matches_reading (s : Sample) (g : Globals) :
  match kind_of (fst (getButtonState s g)) with
  | KShort => buttonA s = false /\ buttonB s = false
  | KLong => buttonA s = true \/ buttonB s = true
  | KNone => fst (getButtonState s g) = BUTTON_NONE
  end.
Proof.
  poll_cases s g; cbv zeta; simpl fst.
  - reflexivity.
  - assert (Hr : buttonA s = false /\ buttonB s = false)
      by (apply currentState_of_zero; assumption).
    destruct (wasShortPress (static_state g)); simpl; auto.
    destruct (totalState (static_state g) =? 1); simpl; auto.
    destruct (totalState (static_state g) =? 2); simpl; auto.
  - reflexivity.
  - destruct (LONG_PRESS_MIN <=? held_for s g); simpl; auto.
    match goal with H : currentState_of s <> 0 |- _ =>
      rewrite currentState_of_cases in H end.
    destruct (buttonA s), (buttonB s); simpl in *; auto; lia.
Qed.

(** ** Reachable latches *)

(** C5. After any sequence of polls from the zeroed latch, [totalState]
    contains [state] as a set of bits; and a further poll empties
    [totalState] exactly when it takes [state] from non-empty to empty. *)
Theorem totalState_superset_and_clearing (ss : list Sample) (s : Sample) :
  let st := static_state (after_polls ss) in
  let st' := static_state (snd (getButtonState s (after_polls ss))) in
  mask_subset (state st) (totalState st)
  /\ ((totalState st <> 0 /\ totalState st' = 0)
      <-> (state st <> 0 /\ state st' = 0)).
Proof.
  intros st st'.
  pose proof (latch_inv_after_polls ss) as Hi. fold st in Hi.
  pose proof (latch_inv_after_polls (ss ++ [s])) as Hi'.
  rewrite after_polls_snoc in Hi'. fold st' in Hi'.
  split; [apply Hi|].
  rewrite (latch_inv_empty st Hi), (latch_inv_empty st' Hi'). reflexivity.
Qed.

(** C9. After any sequence of polls from the zeroed latch (the empty
    sequence included), a latch with an empty [state] has [wasShortPress]
    clear and [totalState] empty. *)
Theorem empty_latch_is_clean (ss : list Sample) :
  state (static_state (after_polls ss)) = 0 ->
  wasShortPress (static_state (after_polls ss)) = false
  /\ totalState (static_state (after_polls ss)) = 0.
Proof.
  intros H. destruct (latch_inv_after_polls ss) as [_ [_ Hz]]. auto.
Qed.

(** ** Held combinations *)

Lemma long_event_of_mask (s1 s2 : Sample) :
  currentState_of s1 = currentState_of s2 ->
  long_event (buttonA s1) (buttonB s1) = long_event (buttonA s2) (buttonB s2).
Proof.
  rewrite !currentState_of_cases.
  destruct (buttonA s1), (buttonB s1), (buttonA s2), (buttonB s2);
    simpl; intros H; try reflexivity; lia.
Qed.

(** While the latched combination is re-read past the threshold, every
    poll answers its long event and [state] and [stateChangeTime] stay. *)
Lemma hold_run (h c : Z) (e : ButtonState) (ss : list Sample) :
  h <> 0 ->
  forall g,
    state (static_state g) = h ->
    stateChangeTime (static_state g) = c ->
    Forall (fun s => currentState_of s = h
                     /\ long_event (buttonA s) (buttonB s) = e
                     /\ LONG_PRESS_MIN <= tick_sub (xTaskGetTickCount (ticks s)) c)
           ss ->
    fst (poll_all ss g) = repeat e (length ss).
Proof.
  intros Hh. induction ss as [|s ss IH]; intros g Hs Hc Hall; [reflexivity|].
  inversion Hall as [|? ? [Hm [He Ht]] Hall']; subst.
  simpl poll_all.
  rewrite (poll_hold s g) by congruence. cbv zeta.
  unfold held_for.
  destruct (Z.leb_spec LONG_PRESS_MIN
              (tick_sub (xTaskGetTickCount (ticks s))
                        (stateChangeTime (static_state g)))) as [_|Hlt]; [|lia].
  match goal with |- context [poll_all ss ?g1] =>
    specialize (IH g1 eq_refl eq_refl Hall'); destruct (poll_all ss g1) end.
  simpl in *. rewrite IH. reflexivity.
Qed.

(** C2. A poll that re-reads the latched, non-empty combination returns
    the long event of the buttons read ([BUTTON_F_LONG] for A alone,
    [BUTTON_B_LONG] for B alone, [BUTTON_BOTH_LONG] for both) once
    [now - stateChangeTime >= LONG_PRESS_MIN], and returns it again on every
    later poll of the same combination past the threshold; below the
    threshold the poll returns [BUTTON_NONE]. *)
Theorem unchanged_hold_event (s : Sample) (later : list Sample) (g : Globals) :
  currentState_of s = state (static_state g) ->
  currentState_of s <> 0 ->
  (LONG_PRESS_MIN <= held_for s g ->
     fst (getButtonState s g) = long_event (buttonA s) (buttonB s)
     /\ long_event (buttonA s) (buttonB s) <> BUTTON_NONE
     /\ (Forall (fun s' => currentState_of s' = currentState_of s
                           /\ LONG_PRESS_MIN <= held_for s' g) later ->
         fst (poll_all later (snd (getButtonState s g)))
         = repeat (long_event (buttonA s) (buttonB s)) (length later)))
  /\ (held_for s g < LONG_PRESS_MIN ->
        fst (getButtonState s g) = BUTTON_NONE).
Proof.
  intros He Hnz. rewrite (poll_hold s g He Hnz). cbv zeta. simpl fst. simpl snd.
  split.
  - intros Hge.
    destruct (Z.leb_spec LONG_PRESS_MIN (held_for s g)) as [_|]; [|lia].
    split; [reflexivity|]. split.
    + rewrite currentState_of_cases in Hnz.
      destruct (buttonA s), (buttonB s); simpl in *; try discriminate; lia.
    + intros Hall.
      apply hold_run with (h := state (static_state g))
                          (c := stateChangeTime (static_state g));
        try reflexivity; [congruence|].
      eapply Forall_impl; [|exact Hall]. cbv beta.
      intros s' [Hm Ht]. repeat split; try congruence.
      * apply long_event_of_mask, Hm.
      * exact Ht.
  - intros Hlt.
    destruct (Z.leb_spec LONG_PRESS_MIN (held_for s g)) as [|_]; [lia|].
    reflexivity.
Qed.

(** ** Holding A alone *)

(** The driver's subtraction of ticks measures an elapsed time shorter than
    the counter's period exactly, wherever the counter wraps. *)
Lemma tick_sub_elapsed (t0 d : Z) :
  0 <= d < 2 ^ 32 ->
  tick_sub (xTaskGetTickCount (t0 + d)) (xTaskGetTickCount t0) = d.
Proof.
  intros Hd. unfold tick_sub, xTaskGetTickCount, wrap32.
  rewrite Zminus_mod_idemp_l, Zminus_mod_idemp_r.
  replace (t0 + d - t0) with d by lia. apply Z.mod_small, Hd.
Qed.

Lemma A_hold_step (t0 d : Z) (g : Globals) :
  A_held_since t0 (static_state g) ->
  0 <= d < 2 ^ 32 ->
  fst (getButtonState (only_A (t0 + d)) g) = hold_event d
  /\ A_held_since t0 (static_state (snd (getButtonState (only_A (t0 + d)) g)))
  /\ wasShortPress (static_state (snd (getButtonState (only_A (t0 + d)) g)))
     = (d <? LONG_PRESS_MIN).
Proof.
  intros (Hs & Hi & Hc) Hd.
  rewrite (poll_hold (only_A (t0 + d)) g)
    by (rewrite currentState_of_only_A; (congruence || lia)).
  cbv zeta. unfold held_for, A_held_since, hold_event. simpl.
  rewrite Hi, Hc, tick_sub_elapsed by exact Hd. auto.
Qed.

Lemma A_hold_run (t0 : Z) (ds : list Z) :
  forall g,
    A_held_since t0 (static_state g) ->
    Forall (fun d => 0 <= d < 2 ^ 32) ds ->
    fst (poll_all (map (fun d => only_A (t0 + d)) ds) g) = map hold_event ds
    /\ A_held_since t0
         (static_state (snd (poll_all (map (fun d => only_A (t0 + d)) ds) g)))
    /\ (ds <> [] ->
        wasShortPress
          (static_state (snd (poll_all (map (fun d => only_A (t0 + d)) ds) g)))
        = (last ds 0 <? LONG_PRESS_MIN)).
Proof.
  induction ds as [|d ds IH]; intros g Hg Hall.
  - simpl. repeat split; try apply Hg. intros H; contradiction.
  - inversion Hall as [|? ? Hd Hall']; subst.
    destruct (A_hold_step t0 d g Hg Hd) as (He & Hg1 & Hw).
    simpl map. simpl poll_all.
    destruct (getButtonState (only_A (t0 + d)) g) as [e g1]. simpl in He, Hg1, Hw.
    destruct (IH g1 Hg1 Hall') as (Hes & Hg2 & Hw2).
    assert (Hlast : wasShortPress
                      (static_state
                         (snd (poll_all (map (fun d0 => only_A (t0 + d0)) ds) g1)))
                    = (last (d :: ds) 0 <? LONG_PRESS_MIN)).
    { destruct ds as [|d' ds']; [exact Hw|].
      rewrite Hw2 by discriminate. reflexivity. }
    destruct (poll_all (map (fun d0 => only_A (t0 + d0)) ds) g1) as [es g2].
    simpl fst in *. simpl snd in *. subst e es.
    repeat split; try apply Hg2. intros _. exact Hlast.
Qed.

Lemma hold_event_before (ds : list Z) :
  Forall (fun d => 0 <= d < LONG_PRESS_MIN) ds ->
  map hold_event ds = repeat BUTTON_NONE (length ds).
Proof.
  induction 1 as [|d ds Hd _ IH]; [reflexivity|]. simpl. rewrite IH.
  unfold hold_event. destruct (Z.leb_spec LONG_PRESS_MIN d); [lia|reflexivity].
Qed.

Lemma hold_event_after (ds : list Z) :
  Forall (fun d => LONG_PRESS_MIN <= d < 2 ^ 32) ds ->
  map hold_event ds = repeat BUTTON_F_LONG (length ds).
Proof.
  induction 1 as [|d ds Hd _ IH]; [reflexivity|]. simpl. rewrite IH.
  unfold hold_event. destruct (Z.leb_spec LONG_PRESS_MIN d); [reflexivity|lia].
Qed.

Lemma LONG_PRESS_MIN_range : 0 <= LONG_PRESS_MIN < 2 ^ 16.
Proof. unfold LONG_PRESS_MIN, wrap16. apply Z.mod_pos_bound. lia. Qed.

(** C3 (amended). A alone is pressed at time [t0] with the latch empty, is
    re-read at the elapsed times [before] (all under the threshold) and
    then at the elapsed times [after] (all at or past it, at least one,
    each shorter than the period of the tick counter), and is released at
    the time [tr].  The press and the polls under the threshold return
    [BUTTON_NONE]; the first poll that finds A down past the threshold and
    every later one return [BUTTON_F_LONG]; the poll of the release
    returns [BUTTON_NONE], not [BUTTON_F_SHORT].  The release goes by the
    [wasShortPress] latched at the last poll that found A down, so a poll
    of A past the threshold is needed: a hold first seen past the
    threshold by the poll of its release ends in [BUTTON_F_SHORT]. *)
Theorem long_hold_of_A (t0 tr : Z) (before after : list Z) (g : Globals) :
  state (static_state g) = 0 ->
  Forall (fun d => 0 <= d < LONG_PRESS_MIN) before ->
  Forall (fun d => LONG_PRESS_MIN <= d < 2 ^ 32) after ->
  after <> [] ->
  fst (poll_all
         (only_A t0
          :: map (fun d => only_A (t0 + d)) (before ++ after)
          ++ [released tr]) g)
  = BUTTON_NONE
    :: repeat BUTTON_NONE (length before)
    ++ repeat BUTTON_F_LONG (length after)
    ++ [BUTTON_NONE].
Proof.
  intros Hs Hb Ha Hne.
  pose proof LONG_PRESS_MIN_range as HL.
  simpl poll_all.
  rewrite (poll_change (only_A t0) g)
    by (rewrite currentState_of_only_A; lia).
  cbv zeta. rewrite Hs. simpl (0 =? 0). cbv iota.
  match goal with |- context [poll_all _ ?g1] => set (g1' := g1) end.
  assert (Hg1 : A_held_since t0 (static_state g1')) by (repeat split).
  assert (Hall : Forall (fun d => 0 <= d < 2 ^ 32) (before ++ after)).
  { apply Forall_app. split; eapply Forall_impl; try eassumption;
      cbv beta; intros; lia. }
  rewrite poll_all_app.
  destruct (A_hold_run t0 (before ++ after) g1' Hg1 Hall) as (Hes & Hg2 & Hw).
  rewrite Hes, map_app, hold_event_before, hold_event_after by assumption.
  simpl fst. f_equal. rewrite <- app_assoc. do 2 f_equal.
  set (g2' := snd (poll_all (map (fun d => only_A (t0 + d)) (before ++ after)) g1')) in *.
  assert (Hw' : wasShortPress (static_state g2') = false).
  { rewrite Hw by (destruct before; [assumption | discriminate]).
    apply Z.ltb_ge.
    destruct (exists_last Hne) as (a' & dl & ->).
    rewrite app_assoc, last_last.
    apply Forall_app in Ha. destruct Ha as [_ Hl].
    inversion Hl; subst. lia. }
  simpl poll_all.
  rewrite (poll_release (released tr) g2')
    by (rewrite ?currentState_of_released; destruct Hg2 as (E & _); (reflexivity || lia)).
  cbv zeta. rewrite Hw'. reflexivity.
Qed.

(** ** [waitForButtonPress] *)

Lemma poll_all_length (ss : list Sample) (g : Globals) :
  length (fst (poll_all ss g)) = length ss.
Proof.
  revert g. induction ss as [|s ss IH]; intros g; [reflexivity|]. simpl.
  destruct (getButtonState s g) as [e g1]. specialize (IH g1).
  destruct (poll_all ss g1). simpl in *. congruence.
Qed.

Lemma poll_all_cons (s : Sample) (ss : list Sample) (g : Globals) :
  poll_all (s :: ss) g =
  (fst (getButtonState s g) :: fst (poll_all ss (snd (getButtonState s g))),
   snd (poll_all ss (snd (getButtonState s g)))).
Proof.
  simpl. destruct (getButtonState s g) as [e g1]. simpl.
  destruct (poll_all ss g1). reflexivity.
Qed.

(** A loop whose condition holds at entry returns exactly when the
    samples begin with polls that keep the condition, all but the last. *)
Lemma wait_loop_returns (c : ButtonState -> bool) (env rest : list Sample)
    (b b' : ButtonState) (g g' : Globals) :
  c b = true ->
  wait_loop c b env g = Some (b', g', rest)
  <-> exists used es,
        env = used ++ rest
        /\ poll_all used g = (es ++ [b'], g')
        /\ forallb c es = true
        /\ c b' = false.
Proof.
  intros Hb. split.
  - revert b g Hb. induction env as [|s env IH]; intros b g Hb H;
      simpl in H; rewrite Hb in H; [discriminate|].
    destruct (getButtonState s g) as [b1 g1] eqn:E.
    destruct (c b1) eqn:Hc1.
    + destruct (IH b1 g1 Hc1 H) as (used & es & -> & Hp & Hf & Hc).
      exists (s :: used), (b1 :: es). repeat split; auto.
      * rewrite poll_all_cons, E. simpl. rewrite Hp. reflexivity.
      * simpl. rewrite Hc1. exact Hf.
    + destruct env; simpl in H; rewrite Hc1 in H; inversion H; subst;
        exists [s], []; simpl; rewrite E; auto.
  - intros (used & es & -> & Hp & Hf & Hc).
    revert b g es Hb Hp Hf. induction used as [|s used IH]; intros b g es Hb Hp Hf.
    + simpl in Hp. destruct es; inversion Hp.
    + rewrite poll_all_cons in Hp. simpl. rewrite Hb.
      destruct (getButtonState s g) as [b1 g1]. simpl in Hp.
      destruct es as [|e es].
      * simpl in Hp. injection Hp as H1 H2 H3. subst b1.
        assert (Hu : used = []).
        { apply length_zero_iff_nil. rewrite <- (poll_all_length used g1), H2.
          reflexivity. }
        subst used. simpl in H3. subst g'.
        destruct rest; simpl; rewrite Hc; reflexivity.
      * simpl in Hp. injection Hp as H1 H2 H3. subst b1.
        simpl in Hf. apply andb_prop in Hf. destruct Hf as [He Hf].
        apply (IH e g1 es He); auto.
        destruct (poll_all used g1). simpl in *. congruence.
Qed.

Lemma truthy_true (e : ButtonState) : truthy e = true <-> e <> BUTTON_NONE.
Proof. destruct e; simpl; split; intros; congruence. Qed.

Lemma truthy_false (e : ButtonState) : truthy e = false <-> e = BUTTON_NONE.
Proof. destruct e; simpl; split; intros; congruence. Qed.

Lemma forallb_truthy (es : list ButtonState) :
  forallb truthy es = true <-> Forall (fun e => e <> BUTTON_NONE) es.
Proof.
  rewrite forallb_forall, Forall_forall.
  split; intros H e He; apply truthy_true, H, He.
Qed.

Lemma forallb_falsy (es : list ButtonState) :
  forallb (fun e => negb (truthy e)) es = true
  <-> Forall (fun e => e = BUTTON_NONE) es.
Proof.
  rewrite forallb_forall, Forall_forall.
  split; intros H e He; specialize (H e He).
  - apply truthy_false. destruct (truthy e); simpl in *; congruence.
  - rewrite H. reflexivity.
Qed.

Lemma poll_all_split (es1 es2 : list ButtonState) :
  forall (used : list Sample) (g g' : Globals),
    poll_all used g = (es1 ++ es2, g') ->
    exists used1 used2,
      used = used1 ++ used2
      /\ poll_all used1 g = (es1, snd (poll_all used1 g))
      /\ poll_all used2 (snd (poll_all used1 g)) = (es2, g').
Proof.
  induction es1 as [|e es1 IH]; intros used g g' H.
  - exists [], used. simpl. auto.
  - destruct used as [|s used]; [simpl in H; discriminate|].
    rewrite poll_all_cons in H. simpl in H. injection H as He Hes Hg.
    destruct (IH used (snd (getButtonState s g)) g') as (u1 & u2 & -> & H1 & H2).
    { rewrite <- Hes, <- Hg. apply surjective_pairing. }
    exists (s :: u1), u2. rewrite !poll_all_cons. simpl.
    rewrite H1 in *. simpl in *. rewrite He. auto.
Qed.

(** C6. [waitForButtonPress] entered while the poll at entry reports an
    event (a button is held long) returns exactly when the polls of its
    loops read: events ([held]), then [BUTTON_NONE], then more
    [BUTTON_NONE] ([idle]), then an event [ev].  So it does not return on
    the event present at entry: it polls until it has seen [BUTTON_NONE]
    and returns on the first event after that, which it consumes; the
    answer carries the globals and the samples left, not the event. *)
Theorem wait_skips_event_at_entry (s0 : Sample) (env rest : list Sample)
    (g g' : Globals) :
  fst (getButtonState s0 g) <> BUTTON_NONE ->
  waitForButtonPress s0 env g = Some (g', rest)
  <-> exists used held idle ev,
        env = used ++ rest
        /\ poll_all used (snd (getButtonState s0 g))
           = (held ++ BUTTON_NONE :: idle ++ [ev], g')
        /\ Forall (fun e => e <> BUTTON_NONE) held
        /\ Forall (fun e => e = BUTTON_NONE) idle
        /\ ev <> BUTTON_NONE.
Proof.
  intros H0. unfold waitForButtonPress.
  destruct (getButtonState s0 g) as [b g0]. simpl in H0. simpl snd.
  apply truthy_true in H0.
  split.
  - destruct (wait_loop truthy b env g0) as [[[b1 g1] env1]|] eqn:E1;
      [|discriminate].
    apply (wait_loop_returns truthy env env1 b b1 g0 g1 H0) in E1.
    destruct E1 as (u1 & es1 & -> & Hp1 & Hf1 & Hc1).
    apply truthy_false in Hc1. subst b1.
    destruct (wait_loop (fun b => negb (truthy b)) BUTTON_NONE env1 g1)
      as [[[b2 g2] env2]|] eqn:E2; [|discriminate].
    intros H. injection H as -> ->.
    apply (wait_loop_returns _ env1 rest BUTTON_NONE b2 g1 g' eq_refl) in E2.
    destruct E2 as (u2 & es2 & -> & Hp2 & Hf2 & Hc2).
    exists (u1 ++ u2), es1, es2, b2.
    rewrite poll_all_app, Hp1. simpl. rewrite Hp2. simpl.
    rewrite <- !app_assoc. simpl. repeat split.
    + apply forallb_truthy, Hf1.
    + apply forallb_falsy, Hf2.
    + apply truthy_true. destruct (truthy b2); simpl in *; congruence.
  - intros (used & held & idle & ev & -> & Hp & Hh & Hi & He).
    replace (held ++ BUTTON_NONE :: idle ++ [ev])
      with ((held ++ [BUTTON_NONE]) ++ (idle ++ [ev])) in Hp
      by (rewrite <- app_assoc; reflexivity).
    apply poll_all_split in Hp. destruct Hp as (u1 & u2 & -> & Hp1 & Hp2).
    assert (E1 : wait_loop truthy b ((u1 ++ u2) ++ rest) g0
                 = Some (BUTTON_NONE, snd (poll_all u1 g0), u2 ++ rest)).
    { apply wait_loop_returns; [exact H0|].
      exists u1, held. rewrite <- app_assoc. repeat split; auto.
      apply forallb_truthy, Hh. }
    rewrite E1.
    assert (E2 : wait_loop (fun b => negb (truthy b)) BUTTON_NONE (u2 ++ rest)
                   (snd (poll_all u1 g0))
                 = Some (ev, g', rest)).
    { apply wait_loop_returns; [reflexivity|].
      exists u2, idle. repeat split; auto.
      - apply forallb_falsy, Hi.
      - apply truthy_true in He. rewrite He. reflexivity. }
    rewrite E2. reflexivity.
Qed.

(** ** [waitForButtonPressOrTimeout] *)

Lemma xTaskGetTickCount_range (t : Z) : 0 <= xTaskGetTickCount t < 2 ^ 32.
Proof. unfold xTaskGetTickCount, wrap32. apply Z.mod_pos_bound. lia. Qed.

(** A loop returns no later than the first round whose test finds the
    tick count above the deadline: either under the test of some round up
    to that one, or earlier because its condition failed. *)
Lemma timed_loop_bounded (c : ButtonState -> bool) (deadline : Z)
    (r : Round) (rest : list Round) :
  deadline < xTaskGetTickCount (ticks_after_delay r) ->
  forall (used : list Round) (b : ButtonState) (g : Globals),
    (exists g' consumed left,
        used ++ [r] = consumed ++ left
        /\ timed_loop c deadline b (used ++ r :: rest) g
           = Some (None, g', left ++ rest))
    \/ (exists b' g' consumed used',
           used = consumed ++ used'
           /\ timed_loop c deadline b (used ++ r :: rest) g
              = Some (Some b', g', used' ++ r :: rest)).
Proof.
  intros Hr. induction used as [|r0 used IH]; intros b g.
  - simpl. destruct (c b).
    + left. destruct (getButtonState (polled r) g) as [b1 g1].
      rewrite Z.gtb_ltb. apply Z.ltb_lt in Hr. rewrite Hr.
      exists g1, [r], []. auto.
    + right. exists b, g, [], []. auto.
  - simpl. destruct (c b).
    + destruct (getButtonState (polled r0) g) as [b1 g1].
      destruct (xTaskGetTickCount (ticks_after_delay r0) >? deadline).
      * left. exists g1, [r0], (used ++ [r]).
        rewrite <- app_assoc. auto.
      * destruct (IH b1 g1) as [(g' & co & le & E & H)|(b' & g' & co & u' & E & H)].
        -- left. exists g', (r0 :: co), le. simpl. rewrite E. auto.
        -- right. exists b', g', (r0 :: co), u'. simpl. split; [congruence|exact H].
    + right. exists b, g, [], (r0 :: used). auto.
Qed.

Lemma quiet_poll (r : Round) (g : Globals) :
  quiet r -> state (static_state g) = 0 ->
  getButtonState (polled r) g = (BUTTON_NONE, g).
Proof.
  intros Hq Hs. apply poll_idle; [|exact Hs].
  apply currentState_of_zero, Hq.
Qed.

Lemma quiet_idle_rounds (ps : list (Z * Z)) : Forall quiet (map idle_round ps).
Proof. induction ps; simpl; constructor; auto. split; reflexivity. Qed.

(** With no button pressed and none latched, the second loop leaves under
    the first test that finds the tick count above the deadline. *)
Lemma timed_loop_idle (deadline : Z) (r : Round) (rest : list Round)
    (g : Globals) :
  state (static_state g) = 0 ->
  quiet r ->
  deadline < xTaskGetTickCount (ticks_after_delay r) ->
  forall used : list Round,
    Forall quiet used ->
    Forall (fun r' => xTaskGetTickCount (ticks_after_delay r') <= deadline)
           used ->
    timed_loop (fun b => negb (truthy b)) deadline BUTTON_NONE
      (used ++ r :: rest) g
    = Some (None, g, rest).
Proof.
  intros Hs Hq Hr. induction used as [|r0 used IH]; intros Hqs Hall; simpl.
  - rewrite quiet_poll by assumption.
    rewrite Z.gtb_ltb. apply Z.ltb_lt in Hr. rewrite Hr. reflexivity.
  - inversion Hall as [|? ? Hp Hall']; inversion Hqs as [|? ? Hq0 Hqs']; subst.
    rewrite quiet_poll by assumption.
    rewrite Z.gtb_ltb. apply Z.ltb_ge in Hp. rewrite Hp. apply IH; assumption.
Qed.

(** Against a deadline of [2 ^ 32 - 1], the largest tick count, no test
    can succeed. *)
Lemma timed_loop_idle_forever (deadline : Z) (g : Globals) :
  2 ^ 32 - 1 <= deadline ->
  state (static_state g) = 0 ->
  forall env : list Round,
    Forall quiet env ->
    timed_loop (fun b => negb (truthy b)) deadline BUTTON_NONE env g = None.
Proof.
  intros Hd Hs. induction env as [|r env IH]; intros Hq; simpl; [reflexivity|].
  inversion Hq as [|? ? Hr Hq']; subst.
  rewrite quiet_poll by assumption.
  pose proof (xTaskGetTickCount_range (ticks_after_delay r)) as Hp.
  rewrite Z.gtb_ltb.
  destruct (Z.ltb_spec deadline (xTaskGetTickCount (ticks_after_delay r)));
    [lia|apply IH, Hq'].
Qed.

Lemma timed_loop_skip (c : ButtonState -> bool) (deadline : Z)
    (b : ButtonState) (env : list Round) (g : Globals) :
  c b = false -> timed_loop c deadline b env g = Some (Some b, g, env).
Proof. intros H. destruct env; simpl; rewrite H; reflexivity. Qed.

(** The helper entered with no button pressed and none latched. *)
Lemma timeout_idle_exit (timeout t0 : Z) (s0 : Sample) (used : list Round)
    (r : Round) (rest : list Round) (g : Globals) :
  state (static_state g) = 0 ->
  buttonA s0 = false -> buttonB s0 = false ->
  Forall quiet used -> quiet r ->
  Forall (fun r' => xTaskGetTickCount (ticks_after_delay r')
                    <= deadline_of timeout t0) used ->
  deadline_of timeout t0 < xTaskGetTickCount (ticks_after_delay r) ->
  waitForButtonPressOrTimeout timeout t0 s0 (used ++ r :: rest) g
  = Some (ExitDeadline, g, rest).
Proof.
  intros Hs Ha Hb Hqs Hq Hall Hr. unfold waitForButtonPressOrTimeout.
  rewrite poll_idle by (try apply currentState_of_zero; auto).
  fold (deadline_of timeout t0).
  rewrite timed_loop_skip by reflexivity.
  rewrite (timed_loop_idle _ r rest g Hs Hq Hr used Hqs Hall). reflexivity.
Qed.

Lemma timeout_idle_forever (timeout t0 : Z) (s0 : Sample) (env : list Round)
    (g : Globals) :
  2 ^ 32 - 1 <= deadline_of timeout t0 ->
  state (static_state g) = 0 ->
  buttonA s0 = false -> buttonB s0 = false ->
  Forall quiet env ->
  waitForButtonPressOrTimeout timeout t0 s0 env g = None.
Proof.
  intros Hd Hs Ha Hb Hq. unfold waitForButtonPressOrTimeout.
  rewrite poll_idle by (try apply currentState_of_zero; auto).
  fold (deadline_of timeout t0).
  rewrite timed_loop_skip by reflexivity.
  rewrite (timed_loop_idle_forever _ g Hd Hs env Hq). reflexivity.
Qed.

(** C7 (amended). [waitForButtonPressOrTimeout] measures against the
    deadline [timeout + xTaskGetTickCount()] computed at entry as a
    [uint32_t], and tests it after the poll and the delay of every turn
    of both loops.  Whatever the buttons do, it returns no later than the
    first test that reads a tick count greater than the deadline; and when
    no button is pressed at all, it returns under exactly that test, the
    latch untouched. *)
Theorem timeout_returns_at_first_late_test (timeout t0 : Z) (s0 : Sample)
    (used : list Round) (r : Round) (rest : list Round) (g : Globals) :
  deadline_of timeout t0 < xTaskGetTickCount (ticks_after_delay r) ->
  (exists x g' consumed left,
      used ++ [r] = consumed ++ left
      /\ waitForButtonPressOrTimeout timeout t0 s0 (used ++ r :: rest) g
         = Some (x, g', left ++ rest))
  /\ (state (static_state g) = 0 ->
      buttonA s0 = false -> buttonB s0 = false ->
      Forall quiet used -> quiet r ->
      Forall (fun r' => xTaskGetTickCount (ticks_after_delay r')
                        <= deadline_of timeout t0) used ->
      waitForButtonPressOrTimeout timeout t0 s0 (used ++ r :: rest) g
      = Some (ExitDeadline, g, rest)).
Proof.
  intros Hr. split.
  - unfold waitForButtonPressOrTimeout. fold (deadline_of timeout t0).
    destruct (getButtonState s0 g) as [b g0].
    destruct (timed_loop_bounded truthy _ r rest Hr used b g0)
      as [(g1 & co & le & E & H)|(b1 & g1 & co & u1 & E & H)]; rewrite H.
    + exists ExitDeadline, g1, co, le. auto.
    + destruct (timed_loop_bounded (fun b => negb (truthy b)) _ r rest Hr u1 b1 g1)
        as [(g2 & co2 & le2 & E2 & H2)|(b2 & g2 & co2 & u2 & E2 & H2)];
        rewrite H2.
      * exists ExitDeadline, g2, (co ++ co2), le2. split; [|reflexivity].
        rewrite E, <- !app_assoc, <- E2. reflexivity.
      * exists ExitEvent, g2, (co ++ co2), (u2 ++ [r]). split.
        -- rewrite E, E2, <- !app_assoc. reflexivity.
        -- rewrite <- app_assoc. reflexivity.
  - intros. apply timeout_idle_exit; assumption.
Qed.

(** C8. The test of [waitForButtonPressOrTimeout] compares two absolute
    tick counts, [xTaskGetTickCount() > timeout], where the classifier
    subtracts ticks modulo [2 ^ 32] ([tick_sub_elapsed]).  Entered 6 ticks
    before the counter wraps with a timeout of 100 ticks, the helper
    returns under its first test, one tick after entry; entered 2 ticks
    before the wrap with a timeout of 1 tick, it never returns while no
    button is pressed, whatever the clock reads. *)
Theorem timeout_test_not_wrap_safe (tp : Z) (rest : list Round)
    (ps : list (Z * Z)) :
  waitForButtonPressOrTimeout 100 (2 ^ 32 - 6) (released (2 ^ 32 - 6))
    (idle_round (tp, 2 ^ 32 - 5) :: rest) Globals_init
  = Some (ExitDeadline, Globals_init, rest)
  /\ waitForButtonPressOrTimeout 1 (2 ^ 32 - 2) (released (2 ^ 32 - 2))
       (map idle_round ps) Globals_init
     = None.
Proof.
  split.
  - apply (timeout_idle_exit 100 (2 ^ 32 - 6) _ [] (idle_round (tp, 2 ^ 32 - 5)));
      try reflexivity; try constructor; reflexivity.
  - apply timeout_idle_forever; try reflexivity.
    apply quiet_idle_rounds.
Qed.

(** ** What one poll writes *)

Lemma some_button_mask (s : Sample) :
  some_button s <-> currentState_of s <> 0.
Proof.
  unfold some_button. rewrite currentState_of_cases.
  destruct (buttonA s), (buttonB s); simpl; split; intros H;
    try lia; auto; destruct H; discriminate.
Qed.

Lemma no_button_mask (s : Sample) :
  no_button s <-> currentState_of s = 0.
Proof. unfold no_button. symmetry. apply currentState_of_zero. Qed.

Lemma poll_lastButtonTime (s : Sample) (g : Globals) :
  lastButtonTime (snd (getButtonState s g))
  = if currentState_of s =? 0 then lastButtonTime g
    else xTaskGetTickCount (ticks s).
Proof.
  poll_cases s g; cbv zeta; simpl;
    repeat match goal with
           | H : currentState_of s = 0 |- _ => rewrite H; clear H
           | H : currentState_of s <> 0 |- _ =>
               apply Z.eqb_neq in H; rewrite H; clear H
           end; reflexivity.
Qed.

Lemma poll_all_app_snd (ss1 ss2 : list Sample) (g : Globals) :
  snd (poll_all (ss1 ++ ss2) g) = snd (poll_all ss2 (snd (poll_all ss1 g))).
Proof. rewrite poll_all_app. reflexivity. Qed.

Lemma poll_all_app_fst (ss1 ss2 : list Sample) (g : Globals) :
  fst (poll_all (ss1 ++ ss2) g)
  = fst (poll_all ss1 g) ++ fst (poll_all ss2 (snd (poll_all ss1 g))).
Proof. rewrite poll_all_app. reflexivity. Qed.

Lemma poll_all_cons_snd (s : Sample) (ss : list Sample) (g : Globals) :
  snd (poll_all (s :: ss) g) = snd (poll_all ss (snd (getButtonState s g))).
Proof. rewrite poll_all_cons. reflexivity. Qed.

Lemma poll_all_cons_fst (s : Sample) (ss : list Sample) (g : Globals) :
  fst (poll_all (s :: ss) g)
  = fst (getButtonState s g) :: fst (poll_all ss (snd (getButtonState s g))).
Proof. rewrite poll_all_cons. reflexivity. Qed.

Lemma poll_all_snoc (ss : list Sample) (s : Sample) (g : Globals) :
  snd (poll_all (ss ++ [s]) g) = snd (getButtonState s (snd (poll_all ss g))).
Proof.
  rewrite poll_all_app. simpl.
  destruct (getButtonState s (snd (poll_all ss g))); reflexivity.
Qed.

(** X1. After every poll the latched [state] is the mask just read, for
    any latch before it: bit 0 for button A and bit 1 for button B, so a
    value among 0, 1, 2 and 3. *)
Theorem state_is_last_reading (ss : list Sample) (s : Sample) (g : Globals) :
  state (static_state (snd (poll_all (ss ++ [s]) g)))
  = Z.b2z (buttonA s) + 2 * Z.b2z (buttonB s).
Proof.
  rewrite poll_all_snoc, <- currentState_of_cases.
  generalize (snd (poll_all ss g)). intros g1.
  poll_cases s g1; cbv zeta; simpl; congruence.
Qed.

(** X2. [initialPressTime] changes only on a poll that finds a button
    down while the latch is empty, and is then the tick of that poll;
    [stateChangeTime] becomes the tick of every poll whose mask differs
    from the latched one and is left alone by every other poll. *)
Theorem time_stamps_of_poll (s : Sample) (g : Globals) :
  let st := static_state g in
  let st' := static_state (snd (getButtonState s g)) in
  let now := xTaskGetTickCount (ticks s) in
  (initialPressTime st' <> initialPressTime st ->
     state st = 0 /\ some_button s)
  /\ (state st = 0 -> some_button s -> initialPressTime st' = now)
  /\ (currentState_of s <> state st -> stateChangeTime st' = now)
  /\ (currentState_of s = state st ->
        stateChangeTime st' = stateChangeTime st).
Proof.
  intros st st' now. unfold st', st, now.
  rewrite some_button_mask.
  poll_cases s g; cbv zeta; simpl; repeat split; intros; try congruence;
    try (exfalso; congruence);
    destruct (Z.eqb_spec (state (static_state g)) 0); congruence.
Qed.

(** X3. [lastButtonTime] after a run of polls is the tick of the last
    poll that found a button down; polls that find both buttons released
    leave it alone. *)
Theorem lastButtonTime_is_last_press (post : list Sample) (g : Globals) :
  Forall no_button post ->
  lastButtonTime (snd (poll_all post g)) = lastButtonTime g
  /\ (forall (pre : list Sample) (s : Sample) (g0 : Globals),
        some_button s ->
        lastButtonTime (snd (poll_all (pre ++ s :: post) g0))
        = xTaskGetTickCount (ticks s)).
Proof.
  intros Hpost.
  assert (Hkeep : forall g1,
             lastButtonTime (snd (poll_all post g1)) = lastButtonTime g1).
  { induction Hpost as [|s' post Hs' _ IH]; intros g1; [reflexivity|].
    rewrite poll_all_cons_snd, IH, poll_lastButtonTime.
    apply no_button_mask in Hs'. rewrite Hs'. reflexivity. }
  split; [apply Hkeep|].
  intros pre s g0 Hs.
  rewrite poll_all_app_snd, poll_all_cons_snd, Hkeep, poll_lastButtonTime.
  apply some_button_mask, Z.eqb_neq in Hs. rewrite Hs. reflexivity.
Qed.

(** ** A combination that stays latched *)

Lemma tick_sub_between (t0 c d : Z) :
  0 <= d - c < 2 ^ 32 ->
  tick_sub (xTaskGetTickCount (t0 + d)) (xTaskGetTickCount (t0 + c)) = d - c.
Proof.
  intros H. replace (t0 + d) with (t0 + c + (d - c)) by lia.
  apply tick_sub_elapsed, H.
Qed.

Lemma later_mask (s : Sample) (e : Z) :
  currentState_of (later s e) = currentState_of s.
Proof. rewrite !currentState_of_cases. reflexivity. Qed.

Lemma hold_since_run (s : Sample) (es : list Z) :
  currentState_of s <> 0 ->
  Forall (fun e => 0 <= e < 2 ^ 32) es ->
  forall g,
    state (static_state g) = currentState_of s ->
    stateChangeTime (static_state g) = xTaskGetTickCount (ticks s) ->
    fst (poll_all (map (later s) es) g)
    = map (hold_event_of (buttonA s) (buttonB s)) es.
Proof.
  intros Hnz. induction 1 as [|e es He _ IH]; intros g Hs Hc; [reflexivity|].
  simpl map. rewrite poll_all_cons_fst.
  rewrite (poll_hold (later s e) g)
    by (rewrite later_mask; congruence).
  cbv zeta. simpl fst. simpl snd. unfold held_for. rewrite Hc.
  simpl (ticks (later s e)). rewrite tick_sub_elapsed by exact He.
  rewrite IH by (simpl; auto). reflexivity.
Qed.

(** X4. A poll that finds a combination other than the latched one, some
    button down, returns [BUTTON_NONE] whatever the latch held, and
    restarts the long-press timer: re-read [e] ticks later ([e] below the
    period of the tick counter), the same combination gives
    [BUTTON_NONE] while [e < LONG_PRESS_MIN] and its long event from
    [e >= LONG_PRESS_MIN] on.  So letting go of one of two buttons held
    long does not give the long event of the other at once. *)
Theorem change_restarts_long_timer (s : Sample) (es : list Z) (g : Globals) :
  currentState_of s <> state (static_state g) ->
  some_button s ->
  Forall (fun e => 0 <= e < 2 ^ 32) es ->
  fst (poll_all (s :: map (later s) es) g)
  = BUTTON_NONE :: map (hold_event_of (buttonA s) (buttonB s)) es.
Proof.
  intros Hne Hs Hes. apply some_button_mask in Hs.
  rewrite poll_all_cons_fst, (poll_change s g Hne Hs). cbv zeta.
  simpl fst. simpl snd. f_equal.
  apply hold_since_run; auto.
Qed.

(** ** Episodes *)

Lemma sample_at_mask (t0 : Z) (p : reading) :
  currentState_of (sample_at t0 p)
  = Z.b2z (fst (fst p)) + 2 * Z.b2z (snd (fst p)).
Proof. rewrite currentState_of_cases. reflexivity. Qed.

Lemma last_cons_default (A : Type) (x d : A) (l : list A) :
  last (x :: l) d = last l x.
Proof.
  revert x d. induction l as [|y l IH]; intros x d; [reflexivity|].
  change (last (x :: y :: l) d) with (last (y :: l) d).
  rewrite (IH y d), (IH y x). reflexivity.
Qed.

Lemma last_elapsed_cons (d : Z) (p : reading) (ps : list reading) :
  last_elapsed d (p :: ps) = last_elapsed (elapsed p) ps.
Proof. unfold last_elapsed. simpl map. apply last_cons_default. Qed.

Lemma nondecreasing_last (ps : list reading) :
  forall lo, nondecreasing_from lo ps -> lo <= last_elapsed lo ps.
Proof.
  induction ps as [|p ps IH]; intros lo H; [simpl; unfold last_elapsed; simpl; lia|].
  destruct H as [H1 H2]. rewrite last_elapsed_cons.
  specialize (IH _ H2). lia.
Qed.

(** The first press of an episode. *)
Lemma episode_begins (s0 : Sample) (g : Globals) :
  state (static_state g) = 0 ->
  some_button s0 ->
  fst (getButtonState s0 g) = BUTTON_NONE
  /\ episode_timing (ticks s0) 0 (static_state (snd (getButtonState s0 g)))
  /\ (totalState (static_state g) = 0 ->
      episode_masks (buttonA s0) (buttonB s0)
        (static_state (snd (getButtonState s0 g)))).
Proof.
  intros Hs Hb. apply some_button_mask in Hb.
  rewrite (poll_change s0 g) by congruence. cbv zeta. rewrite Hs. simpl.
  split; [reflexivity|]. split.
  - repeat split; auto.
    + exists 0. split; [lia|]. rewrite Z.add_0_r. reflexivity.
    + replace (xTaskGetTickCount (ticks s0))
        with (xTaskGetTickCount (ticks s0 + 0)) at 1 by (rewrite Z.add_0_r; reflexivity).
      rewrite tick_sub_elapsed by lia. reflexivity.
  - intros Ht. rewrite Ht. unfold episode_masks. simpl.
    rewrite currentState_of_cases.
    destruct (buttonA s0), (buttonB s0); split; reflexivity.
Qed.

Lemma episode_timing_step (t0 d : Z) (p : reading) (g : Globals) :
  episode_timing t0 d (static_state g) ->
  d <= elapsed p < 2 ^ 32 ->
  some_button (sample_at t0 p) ->
  episode_timing t0 (elapsed p)
    (static_state (snd (getButtonState (sample_at t0 p) g)))
  /\ (fst (getButtonState (sample_at t0 p) g) <> BUTTON_NONE ->
      LONG_PRESS_MIN <= elapsed p).
Proof.
  intros (Hs & Hi & (c & Hc & Hsc) & Hw) Hd Hb.
  apply some_button_mask in Hb.
  poll_cases (sample_at t0 p) g; cbv zeta; try contradiction.
  - simpl. apply Z.eqb_neq in Hs. rewrite Hs, Hi.
    rewrite tick_sub_elapsed by lia.
    split; [|congruence]. repeat split; auto.
    exists (elapsed p). split; [lia|reflexivity].
  - simpl fst. simpl snd. simpl static_state. unfold held_for.
    simpl (ticks (sample_at t0 p)). rewrite Hsc, Hi.
    rewrite tick_sub_elapsed by lia.
    rewrite tick_sub_between by lia.
    split.
    + repeat split; auto. exists c. split; [lia|reflexivity].
    + destruct (Z.leb_spec LONG_PRESS_MIN (elapsed p - c)); [lia|congruence].
Qed.

Lemma episode_masks_step (ea eb : bool) (s : Sample) (g : Globals) :
  episode_masks ea eb (static_state g) ->
  some_button s ->
  episode_masks (ea || buttonA s) (eb || buttonB s)
    (static_state (snd (getButtonState s g))).
Proof.
  intros [Hsub Ht] Hb. apply some_button_mask in Hb.
  poll_cases s g; cbv zeta; try contradiction; unfold episode_masks; simpl.
  - rewrite Ht, currentState_of_cases.
    destruct ea, eb, (buttonA s), (buttonB s); split; reflexivity.
  - match goal with H : currentState_of s = _ |- _ => rewrite <- H in * end.
    split; [exact Hsub|].
    unfold mask_subset in Hsub. rewrite Ht, currentState_of_cases in *.
    destruct ea, eb, (buttonA s), (buttonB s);
      solve [reflexivity | vm_compute in Hsub; discriminate | simpl in Hb; lia].
Qed.

Lemma episode_timing_run (t0 : Z) (ps : list reading) :
  forall (d : Z) (g : Globals),
    episode_timing t0 d (static_state g) ->
    nondecreasing_from d ps ->
    Forall (fun p => some_button (sample_at t0 p) /\ elapsed p < 2 ^ 32) ps ->
    episode_timing t0 (last_elapsed d ps)
      (static_state (snd (poll_all (map (sample_at t0) ps) g)))
    /\ Forall (fun e => e <> BUTTON_NONE ->
                        LONG_PRESS_MIN <= last_elapsed d ps)
         (fst (poll_all (map (sample_at t0) ps) g)).
Proof.
  induction ps as [|p ps IH]; intros d g Hg Hn Hall.
  - simpl. split; [exact Hg|constructor].
  - destruct Hn as [Hd Hn]. inversion Hall as [|? ? [Hb Hlt] Hall']; subst.
    destruct (episode_timing_step t0 d p g Hg (conj Hd Hlt) Hb) as [Hg1 He].
    destruct (IH _ _ Hg1 Hn Hall') as [Hg2 Hes].
    simpl map. rewrite poll_all_cons_snd, poll_all_cons_fst, last_elapsed_cons.
    split; [exact Hg2|]. constructor; [|exact Hes].
    intros H. specialize (He H).
    pose proof (nondecreasing_last ps _ Hn). lia.
Qed.

Lemma episode_masks_run (t0 : Z) (ps : list reading) :
  forall (ea eb : bool) (g : Globals),
    episode_masks ea eb (static_state g) ->
    Forall (fun p => some_button (sample_at t0 p)) ps ->
    episode_masks (ea || ever_A ps) (eb || ever_B ps)
      (static_state (snd (poll_all (map (sample_at t0) ps) g))).
Proof.
  induction ps as [|p ps IH]; intros ea eb g Hg Hall.
  - simpl. rewrite !orb_false_r. exact Hg.
  - inversion Hall as [|? ? Hb Hall']; subst.
    simpl map. rewrite poll_all_cons_snd.
    unfold ever_A, ever_B. simpl existsb. rewrite !orb_assoc.
    apply IH; [|exact Hall'].
    apply (episode_masks_step ea eb (sample_at t0 p) g Hg Hb).
Qed.

(** The release that ends an episode. *)
Lemma episode_release (r : Sample) (g : Globals) :
  no_button r ->
  state (static_state g) <> 0 ->
  fst (getButtonState r g)
  = if wasShortPress (static_state g) then
      if totalState (static_state g) =? 1 then BUTTON_F_SHORT
      else if totalState (static_state g) =? 2 then BUTTON_B_SHORT
      else BUTTON_BOTH
    else BUTTON_NONE.
Proof.
  intros Hr Hs. apply no_button_mask in Hr.
  rewrite (poll_release r g Hr Hs). reflexivity.
Qed.

Lemma all_none (es : list ButtonState) :
  Forall (fun e => e = BUTTON_NONE) es ->
  es = repeat BUTTON_NONE (length es).
Proof. induction 1 as [|e es He _ IH]; simpl; congruence. Qed.

(** X5. An episode that stays short reports once, at its end.  From a
    clean, empty latch a first press at the time [t0], further readings
    with some button down at elapsed times that never decrease and all
    stay under [LONG_PRESS_MIN] (the buttons may change between them), and
    then the release: every poll of the episode returns [BUTTON_NONE] and
    the release returns the short event of the buttons seen pressed during
    the episode, [BUTTON_F_SHORT] for A only, [BUTTON_B_SHORT] for B only,
    [BUTTON_BOTH] when both were, even if not to the end. *)
Theorem short_episode_reports_at_release (s0 r : Sample) (ps : list reading)
    (g : Globals) :
  0 < LONG_PRESS_MIN ->
  state (static_state g) = 0 ->
  totalState (static_state g) = 0 ->
  some_button s0 ->
  Forall (fun p => some_button (sample_at (ticks s0) p)
                   /\ elapsed p < LONG_PRESS_MIN) ps ->
  nondecreasing_from 0 ps ->
  no_button r ->
  fst (poll_all (s0 :: map (sample_at (ticks s0)) ps ++ [r]) g)
  = repeat BUTTON_NONE (S (length ps))
    ++ [short_event (buttonA s0 || ever_A ps) (buttonB s0 || ever_B ps)].
Proof.
  intros HL Hs Ht Hb Hall Hn Hr.
  pose proof LONG_PRESS_MIN_range as HR.
  destruct (episode_begins s0 g Hs Hb) as (E0 & Ht0 & Hm0).
  specialize (Hm0 Ht).
  set (g1 := snd (getButtonState s0 g)) in *.
  assert (Hall1 : Forall (fun p => some_button (sample_at (ticks s0) p)
                                   /\ elapsed p < 2 ^ 32) ps).
  { eapply Forall_impl; [|exact Hall]. cbv beta. intros p [H1 H2]. split; [auto|lia]. }
  assert (Hall2 : Forall (fun p => some_button (sample_at (ticks s0) p)) ps).
  { eapply Forall_impl; [|exact Hall]. cbv beta. intros p [H1 _]. exact H1. }
  destruct (episode_timing_run (ticks s0) ps 0 g1 Ht0 Hn Hall1) as [Ht2 Hes].
  pose proof (episode_masks_run (ticks s0) ps _ _ g1 Hm0 Hall2) as Hm2.
  set (g2 := snd (poll_all (map (sample_at (ticks s0)) ps) g1)) in *.
  assert (Hlast : last_elapsed 0 ps < LONG_PRESS_MIN).
  { clear - HL Hall. revert HL. generalize 0 at 1 2.
    induction Hall as [|p ps [_ Hp] _ IH]; intros d Hd; [exact Hd|].
    rewrite last_elapsed_cons. apply IH, Hp. }
  rewrite poll_all_cons_fst, E0. fold g1. rewrite poll_all_app_fst. fold g2.
  change (repeat BUTTON_NONE (S (length ps)))
    with (BUTTON_NONE :: repeat BUTTON_NONE (length ps)).
  simpl app. f_equal. f_equal.
  - rewrite <- (length_map (sample_at (ticks s0)) ps),
      <- (poll_all_length (map (sample_at (ticks s0)) ps) g1).
    apply all_none. eapply Forall_impl; [|exact Hes]. cbv beta.
    intros e He. destruct e; try reflexivity;
      (assert (LONG_PRESS_MIN <= last_elapsed 0 ps) by (apply He; discriminate); lia).
  - destruct Ht2 as (Hs2 & _ & _ & Hw2). destruct Hm2 as [_ Htot].
    pose proof (episode_release r g2 Hr Hs2) as Er.
    destruct (getButtonState r g2) as [e g3]. simpl in Er |- *. f_equal.
    rewrite Er, Hw2, Htot.
    apply Z.ltb_lt in Hlast. rewrite Hlast.
    destruct (buttonA s0 || ever_A ps), (buttonB s0 || ever_B ps); reflexivity.
Qed.

(** X6. An episode never gives both a long event and a short one.  From an
    empty latch, a first press, further readings with some button down at
    elapsed times that never decrease (each below the period of the tick
    counter), and then the release: if any poll of the episode returned an
    event, the release returns [BUTTON_NONE]. *)
Theorem long_event_silences_release (s0 r : Sample) (ps : list reading)
    (g : Globals) :
  state (static_state g) = 0 ->
  some_button s0 ->
  Forall (fun p => some_button (sample_at (ticks s0) p)
                   /\ elapsed p < 2 ^ 32) ps ->
  nondecreasing_from 0 ps ->
  no_button r ->
  Exists (fun e => e <> BUTTON_NONE)
    (fst (poll_all (s0 :: map (sample_at (ticks s0)) ps) g)) ->
  fst (getButtonState r
         (snd (poll_all (s0 :: map (sample_at (ticks s0)) ps) g)))
  = BUTTON_NONE.
Proof.
  intros Hs Hb Hall Hn Hr Hex.
  destruct (episode_begins s0 g Hs Hb) as (E0 & Ht0 & _).
  rewrite poll_all_cons_fst, E0 in Hex. rewrite poll_all_cons_snd.
  set (g1 := snd (getButtonState s0 g)) in *.
  destruct (episode_timing_run (ticks s0) ps 0 g1 Ht0 Hn Hall) as [Ht2 Hes].
  set (g2 := snd (poll_all (map (sample_at (ticks s0)) ps) g1)) in *.
  destruct Ht2 as (Hs2 & _ & _ & Hw2).
  rewrite (episode_release r g2 Hr Hs2), Hw2.
  inversion Hex as [? ? H0|? ? Hex']; subst; [congruence|].
  apply Exists_exists in Hex'. destruct Hex' as (e & Hin & He).
  rewrite Forall_forall in Hes. specialize (Hes e Hin He).
  destruct (Z.ltb_spec (last_elapsed 0 ps) LONG_PRESS_MIN); [lia|reflexivity].
Qed.

(** ** The classifier reads differences of ticks only *)

Lemma xTaskGetTickCount_shift (t k : Z) :
  xTaskGetTickCount (t + k) = wrap32 (xTaskGetTickCount t + k).
Proof. unfold xTaskGetTickCount, wrap32. rewrite Zplus_mod_idemp_l. reflexivity. Qed.

Lemma tick_sub_shift (t x k : Z) :
  tick_sub (xTaskGetTickCount (t + k)) (wrap32 (x + k))
  = tick_sub (xTaskGetTickCount t) x.
Proof.
  unfold tick_sub, xTaskGetTickCount, wrap32.
  rewrite !Zminus_mod_idemp_l, Zminus_mod_idemp_r.
  f_equal. lia.
Qed.

Lemma tick_sub_same (x : Z) : tick_sub x x = 0.
Proof. unfold tick_sub. rewrite Z.sub_diag. reflexivity. Qed.

Lemma same_upto_shift_step (k : Z) (s : Sample) (g g2 : Globals) :
  same_upto_shift k (static_state g) (static_state g2) ->
  fst (getButtonState (later s k) g2) = fst (getButtonState s g)
  /\ same_upto_shift k (static_state (snd (getButtonState s g)))
       (static_state (snd (getButtonState (later s k) g2))).
Proof.
  intros (Hs & Hw & Ht & Hst).
  pose proof (later_mask s k) as Hm.
  destruct (poll_branches s g) as [[H1 H2]|[[H1 H2]|[[H1 H2]|[H1 H2]]]].
  - rewrite (poll_change s g H1 H2), (poll_change (later s k) g2) by congruence.
    cbv zeta. simpl fst. simpl snd. simpl static_state.
    rewrite Hm, Hs, Ht. simpl (ticks (later s k)).
    split; [reflexivity|].
    destruct (Z.eqb_spec (state (static_state g)) 0) as [E|E].
    + unfold same_upto_shift. simpl.
      rewrite !tick_sub_same.
      repeat split; try reflexivity; apply xTaskGetTickCount_shift.
    + destruct (Hst E) as [Hi Hc]. unfold same_upto_shift. simpl.
      rewrite Hi, tick_sub_shift.
      repeat split; try reflexivity; apply xTaskGetTickCount_shift.
  - rewrite (poll_release s g H1 H2), (poll_release (later s k) g2) by congruence.
    cbv zeta. simpl. rewrite Hw, Ht. split; [reflexivity|].
    unfold same_upto_shift. simpl. repeat split; congruence.
  - rewrite (poll_idle s g H1 H2), (poll_idle (later s k) g2) by congruence.
    simpl. split; [reflexivity|]. repeat split; auto; contradiction.
  - assert (E : state (static_state g) <> 0) by congruence.
    destruct (Hst E) as [Hi Hc].
    rewrite (poll_hold s g H1 H2), (poll_hold (later s k) g2) by congruence.
    cbv zeta. unfold held_for. simpl.
    rewrite Hs, Ht, Hi, Hc, !tick_sub_shift.
    split; [reflexivity|].
    unfold same_upto_shift. simpl. repeat split; auto.
Qed.

Lemma same_upto_shift_run (k : Z) (ss : list Sample) :
  forall g g2,
    same_upto_shift k (static_state g) (static_state g2) ->
    fst (poll_all (map (fun s => later s k) ss) g2) = fst (poll_all ss g).
Proof.
  induction ss as [|s ss IH]; intros g g2 H; [reflexivity|].
  destruct (same_upto_shift_step k s g g2 H) as [He Hn].
  simpl map. rewrite !poll_all_cons_fst, He. f_equal. apply IH, Hn.
Qed.

(** X7. The events depend on the ticks through their differences modulo
    [2 ^ 32] only: from an empty latch, a run of polls and the same run
    with every tick moved by [k] (so that it may straddle the wrap of the
    counter) return the same events. *)
Theorem events_invariant_under_time_shift (k : Z) (ss : list Sample)
    (g : Globals) :
  state (static_state g) = 0 ->
  fst (poll_all (map (fun s => later s k) ss) g) = fst (poll_all ss g).
Proof.
  intros Hs. apply same_upto_shift_run.
  repeat split; auto; contradiction.
Qed.

(** ** More on the blocking helpers *)

Lemma wait_loop_skip (c : ButtonState -> bool) (b : ButtonState)
    (env : list Sample) (g : Globals) :
  c b = false -> wait_loop c b env g = Some (b, g, env).
Proof. intros H. destruct env; simpl; rewrite H; reflexivity. Qed.

(** X8. [waitForButtonPress] entered while the poll at entry reports
    nothing skips its first loop: it returns exactly when the polls of its
    second loop read [BUTTON_NONE] any number of times and then an event,
    on which it returns. *)
Theorem wait_from_idle_returns_on_first_event (s0 : Sample)
    (env rest : list Sample) (g g' : Globals) :
  fst (getButtonState s0 g) = BUTTON_NONE ->
  waitForButtonPress s0 env g = Some (g', rest)
  <-> exists used idle ev,
        env = used ++ rest
        /\ poll_all used (snd (getButtonState s0 g)) = (idle ++ [ev], g')
        /\ Forall (fun e => e = BUTTON_NONE) idle
        /\ ev <> BUTTON_NONE.
Proof.
  intros H0. unfold waitForButtonPress.
  destruct (getButtonState s0 g) as [b g0]. simpl in H0. simpl snd. subst b.
  rewrite wait_loop_skip by reflexivity.
  split.
  - destruct (wait_loop (fun b => negb (truthy b)) BUTTON_NONE env g0)
      as [[[b2 g2] env2]|] eqn:E2; [|discriminate].
    intros H. injection H as -> ->.
    apply (wait_loop_returns _ env rest BUTTON_NONE b2 g0 g' eq_refl) in E2.
    destruct E2 as (u & es & -> & Hp & Hf & Hc).
    exists u, es, b2. repeat split; auto.
    + apply forallb_falsy, Hf.
    + apply truthy_true. destruct (truthy b2); simpl in *; congruence.
  - intros (used & idle & ev & -> & Hp & Hi & He).
    assert (E2 : wait_loop (fun b => negb (truthy b)) BUTTON_NONE
                   (used ++ rest) g0 = Some (ev, g', rest)).
    { apply wait_loop_returns; [reflexivity|].
      exists used, idle. repeat split; auto.
      - apply forallb_falsy, Hi.
      - apply truthy_true in He. rewrite He. reflexivity. }
    rewrite E2. reflexivity.
Qed.

(** X9. However it is entered, [waitForButtonPress] polls at least once
    more after the poll at entry, and returns only just after a poll that
    returned an event; the globals it leaves are those of its polls. *)
Theorem wait_returns_only_on_event (s0 : Sample) (env rest : list Sample)
    (g g' : Globals) :
  waitForButtonPress s0 env g = Some (g', rest) ->
  exists used es ev,
    env = used ++ rest
    /\ used <> []
    /\ poll_all (s0 :: used) g = (es ++ [ev], g')
    /\ ev <> BUTTON_NONE.
Proof.
  unfold waitForButtonPress.
  destruct (getButtonState s0 g) as [b g0] eqn:E0.
  destruct (wait_loop truthy b env g0) as [[[b1 g1] env1]|] eqn:E1;
    [|discriminate].
  destruct (wait_loop (fun b => negb (truthy b)) b1 env1 g1)
    as [[[b2 g2] env2]|] eqn:E2; [|discriminate].
  intros H. injection H as -> ->.
  assert (Hb1 : b1 = BUTTON_NONE /\
                exists u1, env = u1 ++ env1
                           /\ snd (poll_all u1 g0) = g1).
  { destruct (truthy b) eqn:Hb.
    - apply (wait_loop_returns truthy env env1 b b1 g0 g1 Hb) in E1.
      destruct E1 as (u1 & es1 & -> & Hp1 & _ & Hc1).
      split; [apply truthy_false, Hc1|]. exists u1. rewrite Hp1. auto.
    - rewrite wait_loop_skip in E1 by exact Hb. injection E1 as <- <- <-.
      split; [apply truthy_false, Hb|]. exists []. auto. }
  destruct Hb1 as (-> & u1 & -> & Hg1).
  apply (wait_loop_returns _ env1 rest BUTTON_NONE b2 g1 g' eq_refl) in E2.
  destruct E2 as (u2 & es2 & -> & Hp2 & _ & Hc2).
  exists (u1 ++ u2), (b :: fst (poll_all u1 g0) ++ es2), b2.
  repeat split.
  - rewrite app_assoc. reflexivity.
  - intros H. apply app_eq_nil in H. destruct H as [_ ->].
    simpl in Hp2. destruct es2; inversion Hp2.
  - rewrite poll_all_cons, E0. simpl fst. simpl snd.
    rewrite poll_all_app, Hg1, Hp2. simpl. rewrite <- app_assoc. reflexivity.
  - apply truthy_true. destruct (truthy b2); simpl in *; congruence.
Qed.

Lemma timed_loop_follows_wait_loop (c : ButtonState -> bool) (deadline : Z)
    (rest : list Round) (used : list Round) :
  forall (b b' : ButtonState) (g g' : Globals) (srest : list Sample),
    Forall (fun r => xTaskGetTickCount (ticks_after_delay r) <= deadline)
           used ->
    wait_loop c b (map polled used) g = Some (b', g', srest) ->
    exists left,
      srest = map polled left
      /\ Forall (fun r => xTaskGetTickCount (ticks_after_delay r) <= deadline)
                left
      /\ timed_loop c deadline b (used ++ rest) g
         = Some (Some b', g', left ++ rest).
Proof.
  induction used as [|r used IH]; intros b b' g g' srest Hall H.
  - simpl in H. destruct (c b) eqn:Hc; [discriminate|].
    injection H as <- <- <-. exists []. repeat split; auto.
    rewrite timed_loop_skip by exact Hc. reflexivity.
  - destruct (c b) eqn:Hc.
    + inversion Hall as [|? ? Hr Hall']; subst.
      simpl in H. rewrite Hc in H. simpl. rewrite Hc.
      destruct (getButtonState (polled r) g) as [b1 g1].
      rewrite Z.gtb_ltb. apply Z.ltb_ge in Hr. rewrite Hr.
      apply (IH b1 b' g1 g' srest Hall' H).
    + rewrite wait_loop_skip in H by exact Hc. injection H as <- <- <-.
      exists (r :: used). repeat split; auto.
      rewrite timed_loop_skip by exact Hc. reflexivity.
Qed.

(** X10. As long as no test finds the tick count above the deadline,
    [waitForButtonPressOrTimeout] does what [waitForButtonPress] does: when
    the latter returns after the polls of some rounds, none of which tests
    above the deadline, the former returns after the same rounds, at the
    end of its second loop, with the same globals. *)
Theorem timed_wait_follows_wait (timeout t0 : Z) (s0 : Sample)
    (used rest : list Round) (g g' : Globals) :
  Forall (fun r => xTaskGetTickCount (ticks_after_delay r)
                   <= deadline_of timeout t0) used ->
  waitForButtonPress s0 (map polled used) g = Some (g', []) ->
  waitForButtonPressOrTimeout timeout t0 s0 (used ++ rest) g
  = Some (ExitEvent, g', rest).
Proof.
  intros Hall. unfold waitForButtonPress, waitForButtonPressOrTimeout.
  fold (deadline_of timeout t0).
  destruct (getButtonState s0 g) as [b g0].
  destruct (wait_loop truthy b (map polled used) g0)
    as [[[b1 g1] env1]|] eqn:E1; [|discriminate].
  destruct (timed_loop_follows_wait_loop _ _ rest used _ _ _ _ _ Hall E1)
    as (left1 & -> & Hall1 & T1).
  rewrite T1.
  destruct (wait_loop (fun b => negb (truthy b)) b1 (map polled left1) g1)
    as [[[b2 g2] env2]|] eqn:E2; [|discriminate].
  intros H. injection H as -> ->.
  destruct (timed_loop_follows_wait_loop _ _ rest left1 _ _ _ _ _ Hall1 E2)
    as (left2 & Hl2 & _ & T2).
  symmetry in Hl2. apply map_eq_nil in Hl2. subst left2.
  rewrite T2. reflexivity.
Qed.

(** How a loop of [waitForButtonPressOrTimeout] can end. *)
Lemma timed_loop_exit (c : ButtonState -> bool) (deadline : Z)
    (env : list Round) :
  forall (b : ButtonState) (g : Globals) (out : option ButtonState)
         (g' : Globals) (rest : list Round),
    timed_loop c deadline b env g = Some (out, g', rest) ->
    exists used,
      env = used ++ rest
      /\ g' = snd (poll_all (map polled used) g)
      /\ match out with
         | None => used <> [] /\ ~ Forall (within deadline) used
         | Some b' =>
             c b' = false
             /\ Forall (within deadline) used
             /\ last (fst (poll_all (map polled used) g)) b = b'
         end.
Proof.
  induction env as [|r env IH]; intros b g out g' rest H; simpl in H.
  - destruct (c b) eqn:Hc; [discriminate|]. injection H as <- <- <-.
    exists []. simpl. auto.
  - destruct (c b) eqn:Hc.
    + destruct (getButtonState (polled r) g) as [b1 g1] eqn:E.
      rewrite Z.gtb_ltb in H.
      destruct (Z.ltb_spec deadline (xTaskGetTickCount (ticks_after_delay r)))
        as [Hlt|Hle].
      * injection H as <- <- <-. exists [r]. simpl. rewrite E. simpl.
        repeat split; [discriminate|].
        intros HF. inversion HF; subst. unfold within in *. lia.
      * destruct (IH b1 g1 out g' rest H) as (used & -> & Hg & Hout).
        exists (r :: used). simpl map. rewrite poll_all_cons_snd, poll_all_cons_fst, E.
        simpl fst. simpl snd. repeat split; auto.
        destruct out as [b'|].
        -- destruct Hout as (Hc' & HF & Hl). repeat split; auto.
           rewrite last_cons_default. exact Hl.
        -- destruct Hout as (Hn & HF). split; [discriminate|].
           intros HF'. inversion HF'; subst. auto.
    + injection H as <- <- <-. exists []. simpl. auto.
Qed.

(** X11. [waitForButtonPressOrTimeout] does not return without cause.  When
    it returns it has polled at least once after the poll at entry and
    leaves the globals of its polls; and if none of its tests found the
    tick count above the deadline, it returns at the end of its second
    loop, just after a poll that returned an event. *)
Theorem timed_wait_returns_with_cause (timeout t0 : Z) (s0 : Sample)
    (env rest : list Round) (x : Exit) (g g' : Globals) :
  waitForButtonPressOrTimeout timeout t0 s0 env g = Some (x, g', rest) ->
  exists used,
    env = used ++ rest
    /\ used <> []
    /\ g' = snd (poll_all (s0 :: map polled used) g)
    /\ (Forall (within (deadline_of timeout t0)) used ->
        x = ExitEvent
        /\ exists es ev,
             fst (poll_all (s0 :: map polled used) g) = es ++ [ev]
             /\ ev <> BUTTON_NONE).
Proof.
  unfold waitForButtonPressOrTimeout. fold (deadline_of timeout t0).
  destruct (getButtonState s0 g) as [b g0] eqn:E0.
  destruct (timed_loop truthy (deadline_of timeout t0) b env g0)
    as [[[out1 g1] env1]|] eqn:T1; [|discriminate].
  apply timed_loop_exit in T1. destruct T1 as (u1 & -> & Hg1 & Hout1).
  destruct out1 as [b1|].
  - destruct Hout1 as (Hc1 & HF1 & Hl1). apply truthy_false in Hc1. subst b1.
    destruct (timed_loop (fun b => negb (truthy b)) (deadline_of timeout t0)
                BUTTON_NONE env1 g1)
      as [[[out2 g2] env2]|] eqn:T2; [|discriminate].
    apply timed_loop_exit in T2. destruct T2 as (u2 & -> & Hg2 & Hout2).
    assert (Hpoll : poll_all (s0 :: map polled (u1 ++ u2)) g
                    = (b :: fst (poll_all (map polled u1) g0)
                         ++ fst (poll_all (map polled u2) g1), g2)).
    { rewrite poll_all_cons, E0. simpl fst. simpl snd.
      rewrite map_app, poll_all_app, <- Hg1, <- Hg2. reflexivity. }
    destruct out2 as [b2|].
    + destruct Hout2 as (Hc2 & HF2 & Hl2).
      intros H. injection H as <- <- <-.
      assert (Hb2 : b2 <> BUTTON_NONE)
        by (apply truthy_true; destruct (truthy b2); simpl in *; congruence).
      assert (Hne : fst (poll_all (map polled u2) g1) <> [])
        by (intros Hnil; rewrite Hnil in Hl2; simpl in Hl2; congruence).
      exists (u1 ++ u2). rewrite app_assoc, Hpoll. simpl fst. simpl snd.
      repeat split; auto.
      * intros Hnil. apply app_eq_nil in Hnil. destruct Hnil as [_ ->].
        apply Hne. reflexivity.
      * destruct (exists_last Hne) as (es2 & e & Ees). rewrite Ees in *.
        rewrite last_last in Hl2. subst e.
        exists (b :: fst (poll_all (map polled u1) g0) ++ es2), b2.
        split; [|exact Hb2]. simpl. rewrite <- app_assoc. reflexivity.
    + destruct Hout2 as (Hn2 & HF2).
      intros H. injection H as <- <- <-.
      exists (u1 ++ u2). rewrite app_assoc, Hpoll. simpl snd.
      repeat split; auto.
      * intros Hnil. apply app_eq_nil in Hnil. destruct Hnil as [_ ->]. auto.
      * exfalso. apply HF2. apply Forall_app in H. apply H.
      * exfalso. apply HF2. apply Forall_app in H. apply H.
  - destruct Hout1 as (Hn1 & HF1).
    intros H. injection H as <- <- <-.
    exists u1. rewrite poll_all_cons_snd, E0. simpl snd.
    repeat split; auto; exfalso; auto.
Qed.

(** X12. After any sequence of polls from the zeroed latch, a poll
    returns [BUTTON_BOTH] only when [totalState] holds both bits, and
    [BUTTON_F_SHORT] or [BUTTON_B_SHORT] only when it holds the one bit of
    that button: the last branch of the release is the case of both
    buttons and no other. *)
Theorem short_event_names_totalState (ss : list Sample) (s : Sample) :
  let e := fst (getButtonState s (after_polls ss)) in
  let tot := totalState (static_state (after_polls ss)) in
  match e with
  | BUTTON_F_SHORT => tot = 1
  | BUTTON_B_SHORT => tot = 2
  | BUTTON_BOTH => tot = 3
  | _ => True
  end.
Proof.
  intros e tot. unfold e, tot.
  pose proof (latch_inv_after_polls ss) as Hi.
  pose proof (latch_inv_empty _ Hi) as He.
  destruct Hi as [[_ Hr] _].
  poll_cases s (after_polls ss); cbv zeta; simpl fst.
  - exact I.
  - destruct (wasShortPress (static_state (after_polls ss))); [|exact I].
    destruct (Z.eqb_spec (totalState (static_state (after_polls ss))) 1);
      [assumption|].
    destruct (Z.eqb_spec (totalState (static_state (after_polls ss))) 2);
      [assumption|].
    assert (totalState (static_state (after_polls ss)) <> 0) by (rewrite He; auto).
    lia.
  - exact I.
  - destruct (LONG_PRESS_MIN <=? held_for s (after_polls ss)); [|exact I].
    destruct (buttonA s), (buttonB s); exact I.
Qed.

End Buttons.

(** * Concrete runs

    The runs below take a tick rate of 1 kHz: [TICKS_100MS] is 100 and
    [LONG_PRESS_MIN] is 400 ticks. *)

(** The latch after A was pressed at the time 1000. *)
Definition A_down : Globals := after_polls 100 [only_A 1000].

(** A tap of A, pressed at 1000 and released at 1100, gives
    [BUTTON_F_SHORT] at the release. *)
Lemma release_edge_event_witness :
  state (static_state A_down) <> 0
  /\ fst (getButtonState 100 (released 1100) A_down) = BUTTON_F_SHORT.
Proof.
  assert (H : state (static_state A_down) <> 0) by (vm_compute; discriminate).
  split; [exact H|].
  exact (proj1 (release_edge_event 100 (released 1100) A_down
                  eq_refl eq_refl H) eq_refl eq_refl).
Defined.

(** A still down 500 ticks after the press gives [BUTTON_F_LONG], and
    again at the two polls that follow; 300 ticks after the press it gives
    [BUTTON_NONE]. *)
Lemma unchanged_hold_event_witness :
  (currentState_of (only_A 1500) = state (static_state A_down)
   /\ currentState_of (only_A 1500) <> 0
   /\ LONG_PRESS_MIN 100 <= held_for (only_A 1500) A_down)
  /\ fst (getButtonState 100 (only_A 1500) A_down) = BUTTON_F_LONG
  /\ fst (poll_all 100 [only_A 1600; only_A 1700]
            (snd (getButtonState 100 (only_A 1500) A_down)))
     = [BUTTON_F_LONG; BUTTON_F_LONG].
Proof.
  assert (H1 : currentState_of (only_A 1500) = state (static_state A_down))
    by reflexivity.
  assert (H2 : currentState_of (only_A 1500) <> 0) by (vm_compute; discriminate).
  assert (H3 : LONG_PRESS_MIN 100 <= held_for (only_A 1500) A_down)
    by (vm_compute; discriminate).
  split; [repeat split; assumption|].
  destruct (proj1 (unchanged_hold_event 100 (only_A 1500)
                     [only_A 1600; only_A 1700] A_down H1 H2) H3)
    as (E & _ & R).
  split; [exact E|]. apply R.
  repeat constructor; vm_compute; discriminate.
Defined.

(** A pressed at 1000, polled 100, 300, 400 and 450 ticks later and
    released at 1500. *)
Lemma long_hold_of_A_witness :
  fst (poll_all 100
         [only_A 1000; only_A 1100; only_A 1300; only_A 1400; only_A 1450;
          released 1500] Globals_init)
  = [BUTTON_NONE; BUTTON_NONE; BUTTON_NONE; BUTTON_F_LONG; BUTTON_F_LONG;
     BUTTON_NONE].
Proof.
  apply (long_hold_of_A 100 1000 1500 [100; 300] [400; 450] Globals_init).
  - reflexivity.
  - repeat constructor; vm_compute; discriminate.
  - repeat constructor; vm_compute; discriminate.
  - discriminate.
Defined.

(** C3 (as stated, refuted). A alone is down from 1000 to 1500, longer
    than the 400 ticks of [LONG_PRESS_MIN], and the first poll after the
    threshold is the poll of the release: no [BUTTON_F_LONG] is returned
    and the release returns [BUTTON_F_SHORT].  The same happens when the
    polls of A all fall under the threshold (here 30 and 390 ticks after
    the press) and the release is seen 420 ticks after it. *)
Lemma long_hold_first_seen_at_release :
  LONG_PRESS_MIN 100 <= 1500 - 1000
  /\ fst (poll_all 100 [only_A 1000; released 1500] Globals_init)
     = [BUTTON_NONE; BUTTON_F_SHORT]
  /\ fst (poll_all 100
            [only_A 1000; only_A 1030; only_A 1390; released 1420]
            Globals_init)
     = [BUTTON_NONE; BUTTON_NONE; BUTTON_NONE; BUTTON_F_SHORT].
Proof.
  split; [vm_compute; discriminate|]. split; reflexivity.
Qed.

(** The press of A at start-up. *)
Lemma change_poll_latches_witness :
  fst (getButtonState 100 (only_A 1000) Globals_init) = BUTTON_NONE
  /\ state (static_state (snd (getButtonState 100 (only_A 1000) Globals_init)))
     = 1.
Proof.
  assert (H1 : currentState_of (only_A 1000)
               <> state (static_state Globals_init))
    by (vm_compute; discriminate).
  assert (H2 : currentState_of (only_A 1000) <> 0) by (vm_compute; discriminate).
  assert (H3 : 0 <= totalState (static_state Globals_init) < 2 ^ 8)
    by (split; vm_compute; (discriminate || reflexivity)).
  destruct (change_poll_latches 100 (only_A 1000) Globals_init H1 H2 H3)
    as (E1 & E2 & _).
  split; [exact E1 | exact E2].
Defined.

(** A tap leaves the latch clean. *)
Lemma empty_latch_is_clean_witness :
  wasShortPress (static_state (after_polls 100 [only_A 1000; released 1100]))
  = false
  /\ totalState (static_state (after_polls 100 [only_A 1000; released 1100]))
     = 0.
Proof.
  apply (empty_latch_is_clean 100 [only_A 1000; released 1100]).
  reflexivity.
Defined.

(** [waitForButtonPress] entered 500 ticks into a hold of A: the polls of
    its loops read [BUTTON_F_LONG] (A still down), [BUTTON_NONE] (the
    release), [BUTTON_NONE] (idle), [BUTTON_NONE] (a new press) and
    [BUTTON_F_SHORT] (its release), on which the helper returns. *)
Lemma wait_skips_event_at_entry_witness :
  fst (getButtonState 100 (only_A 1500) A_down) <> BUTTON_NONE
  /\ exists g',
       waitForButtonPress 100 (only_A 1500)
         [only_A 1510; released 1520; released 1530; only_A 1540;
          released 1550; only_A 1560] A_down
       = Some (g', [only_A 1560]).
Proof.
  assert (H : fst (getButtonState 100 (only_A 1500) A_down) <> BUTTON_NONE)
    by (vm_compute; discriminate).
  split; [exact H|].
  eexists.
  apply (proj2 (wait_skips_event_at_entry 100 (only_A 1500) _ _ A_down _ H)).
  exists [only_A 1510; released 1520; released 1530; only_A 1540; released 1550],
    [BUTTON_F_LONG], [BUTTON_NONE; BUTTON_NONE], BUTTON_F_SHORT.
  split; [reflexivity|]. split; [vm_compute; reflexivity|].
  repeat split; repeat constructor; discriminate.
Defined.

(** The three quiet rounds of the runs below, tested at the ticks 5, 10
    and 15. *)
Definition round5 : Round := mkRound (released 2) 5.
Definition round10 : Round := mkRound (released 7) 10.
Definition round15 : Round := mkRound (released 12) 15.

(** Entered at the tick 0 with a timeout of 10 and no button pressed, the
    helper returns under the test that reads the tick 15. *)
Lemma timeout_returns_at_first_late_test_witness :
  deadline_of 10 0 < xTaskGetTickCount (ticks_after_delay round15)
  /\ waitForButtonPressOrTimeout 100 10 0 (released 0)
       [round5; round10; round15] Globals_init
     = Some (ExitDeadline, Globals_init, []).
Proof.
  assert (H : deadline_of 10 0 < xTaskGetTickCount (ticks_after_delay round15))
    by reflexivity.
  split; [exact H|].
  apply (proj2 (timeout_returns_at_first_late_test 100 10 0 (released 0)
                  [round5; round10] round15 [] Globals_init H));
    try reflexivity.
  - repeat constructor.
  - split; reflexivity.
  - repeat constructor; vm_compute; discriminate.
Defined.

(** C7 (as stated, refuted). Entered at the tick 0 with a timeout of 10
    ticks and no button pressed, the helper is still in its loop after the
    test that reads the tick 10, the deadline itself: it has not returned
    by the deadline, and returns under the next test, at the tick 15. *)
Lemma timeout_not_returned_at_deadline :
  deadline_of 10 0 = 10
  /\ xTaskGetTickCount (ticks_after_delay round10) = deadline_of 10 0
  /\ waitForButtonPressOrTimeout 100 10 0 (released 0)
       [round5; round10] Globals_init
     = None
  /\ waitForButtonPressOrTimeout 100 10 0 (released 0)
       [round5; round10; round15] Globals_init
     = Some (ExitDeadline, Globals_init, []).
Proof. repeat split. Qed.

(** ** Runs for the further properties *)

(** A pressed at 1000 and still down at 1100, then two polls with no
    button: [lastButtonTime] is 1100. *)
Lemma lastButtonTime_is_last_press_witness :
  Forall no_button [released 1200; released 1300]
  /\ lastButtonTime
       (snd (poll_all 100
               [only_A 1000; only_A 1100; released 1200; released 1300]
               Globals_init))
     = 1100.
Proof.
  assert (H : Forall no_button [released 1200; released 1300])
    by (repeat constructor).
  split; [exact H|].
  exact (proj2 (lastButtonTime_is_last_press 100
                  [released 1200; released 1300] Globals_init H)
           [only_A 1000] (only_A 1100) Globals_init (or_introl eq_refl)).
Defined.

(** Both buttons down since 1000 and reported long at 1500. *)
Definition both_down : Globals :=
  after_polls 100 [mkSample true true 1000; mkSample true true 1500].

(** A is let go at 1600 while B stays down: nothing at 1600, 1700 and
    1999, [BUTTON_B_LONG] at 2000 and 2100. *)
Lemma change_restarts_long_timer_witness :
  fst (poll_all 100
         [mkSample false true 1600; mkSample false true 1700;
          mkSample false true 1999; mkSample false true 2000;
          mkSample false true 2100] both_down)
  = [BUTTON_NONE; BUTTON_NONE; BUTTON_NONE; BUTTON_B_LONG; BUTTON_B_LONG].
Proof.
  apply (change_restarts_long_timer 100 (mkSample false true 1600)
           [100; 399; 400; 500] both_down).
  - vm_compute. discriminate.
  - right. reflexivity.
  - repeat constructor; vm_compute; discriminate.
Defined.

(** Both buttons pressed at 1000, A let go by 1100, B still down at 1200,
    all released at 1300: one [BUTTON_BOTH], at the release. *)
Lemma short_episode_reports_at_release_witness :
  fst (poll_all 100
         [mkSample true true 1000; mkSample false true 1100;
          mkSample false true 1200; released 1300] Globals_init)
  = [BUTTON_NONE; BUTTON_NONE; BUTTON_NONE; BUTTON_BOTH].
Proof.
  apply (short_episode_reports_at_release 100 (mkSample true true 1000)
           (released 1300) [(false, true, 100); (false, true, 200)]
           Globals_init).
  - reflexivity.
  - reflexivity.
  - reflexivity.
  - left. reflexivity.
  - repeat (apply Forall_cons || apply Forall_nil);
      (split; [right; reflexivity | reflexivity]).
  - repeat split; vm_compute; discriminate.
  - split; reflexivity.
Defined.

(** A pressed at 1000 and reported long at 1450: nothing at the release. *)
Lemma long_event_silences_release_witness :
  fst (getButtonState 100 (released 1500)
         (snd (poll_all 100 [only_A 1000; only_A 1450] Globals_init)))
  = BUTTON_NONE.
Proof.
  apply (long_event_silences_release 100 (only_A 1000) (released 1500)
           [(true, false, 450)] Globals_init).
  - reflexivity.
  - left. reflexivity.
  - repeat constructor.
  - repeat split; vm_compute; discriminate.
  - split; reflexivity.
  - right. left. discriminate.
Defined.

(** The long press above begun 50 ticks before the counter wraps. *)
Lemma events_invariant_under_time_shift_witness :
  fst (poll_all 100
         [only_A (2 ^ 32 - 50); only_A (2 ^ 32 + 400); released (2 ^ 32 + 450)]
         Globals_init)
  = [BUTTON_NONE; BUTTON_F_LONG; BUTTON_NONE].
Proof.
  exact (eq_trans
           (events_invariant_under_time_shift 100 (2 ^ 32 - 1050)
              [only_A 1000; only_A 1450; released 1500] Globals_init eq_refl)
           eq_refl).
Defined.

(** The globals after an idle poll at 900 and a tap of A at 1000. *)
Definition tapped : Globals :=
  snd (poll_all 100 [released 900; released 950; only_A 1000; released 1100]
         Globals_init).

(** [waitForButtonPress] entered idle at 900 returns on the
    [BUTTON_F_SHORT] of a tap. *)
Lemma wait_from_idle_returns_on_first_event_witness :
  fst (getButtonState 100 (released 900) Globals_init) = BUTTON_NONE
  /\ waitForButtonPress 100 (released 900)
       [released 950; only_A 1000; released 1100; released 1200] Globals_init
     = Some (tapped, [released 1200]).
Proof.
  assert (H : fst (getButtonState 100 (released 900) Globals_init)
              = BUTTON_NONE) by reflexivity.
  split; [exact H|].
  apply (proj2 (wait_from_idle_returns_on_first_event 100 (released 900)
                  _ _ Globals_init tapped H)).
  exists [released 950; only_A 1000; released 1100],
    [BUTTON_NONE; BUTTON_NONE], BUTTON_F_SHORT.
  split; [reflexivity|]. split; [reflexivity|].
  split; [repeat constructor|discriminate].
Defined.

Lemma wait_returns_only_on_event_witness :
  exists used es ev,
    [released 950; only_A 1000; released 1100; released 1200]
    = used ++ [released 1200]
    /\ used <> []
    /\ poll_all 100 (released 900 :: used) Globals_init = (es ++ [ev], tapped)
    /\ ev <> BUTTON_NONE.
Proof.
  apply (wait_returns_only_on_event 100 (released 900)
           [released 950; only_A 1000; released 1100; released 1200]
           [released 1200] Globals_init tapped).
  reflexivity.
Defined.

(** The same tap seen by [waitForButtonPressOrTimeout] entered at 900 with
    a timeout of 5000 ticks. *)
Definition tap_rounds : list Round :=
  [mkRound (released 950) 960; mkRound (only_A 1000) 1010;
   mkRound (released 1100) 1110].

Lemma timed_wait_follows_wait_witness :
  waitForButtonPressOrTimeout 100 5000 900 (released 900)
    (tap_rounds ++ [mkRound (released 1200) 1210]) Globals_init
  = Some (ExitEvent, tapped, [mkRound (released 1200) 1210]).
Proof.
  apply (timed_wait_follows_wait 100 5000 900 (released 900) tap_rounds
           [mkRound (released 1200) 1210] Globals_init tapped).
  - repeat constructor; vm_compute; discriminate.
  - reflexivity.
Defined.

Lemma timed_wait_returns_with_cause_witness :
  exists used,
    tap_rounds = used ++ []
    /\ used <> []
    /\ tapped = snd (poll_all 100 (released 900 :: map polled used) Globals_init)
    /\ (Forall (within (deadline_of 5000 900)) used ->
        ExitEvent = ExitEvent
        /\ exists es ev,
             fst (poll_all 100 (released 900 :: map polled used) Globals_init)
             = es ++ [ev]
             /\ ev <> BUTTON_NONE).
Proof.
  apply (timed_wait_returns_with_cause 100 5000 900 (released 900)
           tap_rounds [] ExitEvent Globals_init tapped).
  reflexivity.
Defined.
